(** * The declaration reflection builder of typedoc

    A shallow embedding of [src/lib/converter/factories/declaration.ts]:
    [createDeclaration], [setupDeclaration] and [mergeDeclarations], with
    the part of the reflection model, of the conversion context and of the
    TypeScript AST that these three functions read or write.

    The context object is the state: it carries the scope (the container
    whose children are mutated in place), the node/reflection registry and
    the log of triggered events, and it is threaded through every call. *)

From Stdlib Require Import ZArith String List Bool Lia.
From stdpp Require Import base list.
Import ListNotations.

Local Open Scope Z_scope.
Local Open Scope string_scope.
Local Open Scope list_scope.

(** ** The TypeScript side: modifier flags, syntax kinds, symbols, nodes *)

Module ModifierFlags.
(** [ts.ModifierFlags], the bit masks of the TypeScript compiler the
    repository is built against: one bit per modifier. *)
Definition None : Z := 0.
Definition Export : Z := Z.shiftl 1 0.
Definition Ambient : Z := Z.shiftl 1 1.
Definition Public : Z := Z.shiftl 1 2.
Definition Private : Z := Z.shiftl 1 3.
Definition Protected : Z := Z.shiftl 1 4.
Definition Static : Z := Z.shiftl 1 5.
Definition Readonly : Z := Z.shiftl 1 6.
Definition Abstract : Z := Z.shiftl 1 7.
End ModifierFlags.

(** [!!(modifiers & flag)] *)
Definition hasModifier (modifiers flag : Z) : bool :=
  negb (Z.land modifiers flag =? 0)%Z.

Module SyntaxKind.
(** [ts.SyntaxKind]: the members the builder tests for, and the rest. *)
Inductive t :=
| VariableDeclaration
| VariableDeclarationList
| FunctionDeclaration
| Constructor
| ClassDeclaration
| Other (code : nat).

Definition eqb (a b : t) : bool :=
  match a, b with
  | VariableDeclaration, VariableDeclaration
  | VariableDeclarationList, VariableDeclarationList
  | FunctionDeclaration, FunctionDeclaration
  | Constructor, Constructor
  | ClassDeclaration, ClassDeclaration => true
  | Other m, Other n => Nat.eqb m n
  | _, _ => false
  end.
End SyntaxKind.

Record Symbol := mkSymbol {
  symbolId : nat;
  symbolName : string
}.

#[local] Set Warnings "-register-all".

(** A node of the AST.  [nodeId] is the identity of the object ([===] on
    nodes compares it); [combinedModifierFlags] is what
    [ts.getCombinedModifierFlags] answers for the node. *)
Inductive Node := mkNode {
  nodeId : nat;
  nodeKind : SyntaxKind.t;
  combinedModifierFlags : Z;
  parent : option Node;
  symbol : option Symbol;
  localSymbol : option Symbol;
  questionToken : bool
}.

(** [a === b] on two possibly undefined nodes. *)
Definition sameNode (a b : option Node) : bool :=
  match a, b with
  | Some x, Some y => Nat.eqb (nodeId x) (nodeId y)
  | None, None => true
  | _, _ => false
  end.

(** ** The reflection model

    The classes of [../../models/index] are absent from the sources; what
    the builder reads and writes of them is modelled from the spec. *)

Module ReflectionKind.
(** Modelled from the spec: the enumeration [ReflectionKind] of the
    models, absent from the sources: the kinds the builder names, and the
    other kinds of declarations. *)
Inductive t :=
| Global | ExternalModule | Module | Enum | EnumMember | Variable_
| Function | Class | Interface | Constructor | Property | Method
| CallSignature | IndexSignature | ConstructorSignature | Parameter_
| TypeLiteral | TypeParameter | Accessor | GetSignature | SetSignature
| ObjectLiteral | TypeAlias | Event.

(** [a === b] *)
Definition eqb (a b : t) : bool :=
  match a, b with
  | Global, Global
  | ExternalModule, ExternalModule
  | Module, Module
  | Enum, Enum
  | EnumMember, EnumMember
  | Variable_, Variable_
  | Function, Function
  | Class, Class
  | Interface, Interface
  | Constructor, Constructor
  | Property, Property
  | Method, Method
  | CallSignature, CallSignature
  | IndexSignature, IndexSignature
  | ConstructorSignature, ConstructorSignature
  | Parameter_, Parameter_
  | TypeLiteral, TypeLiteral
  | TypeParameter, TypeParameter
  | Accessor, Accessor
  | GetSignature, GetSignature
  | SetSignature, SetSignature
  | ObjectLiteral, ObjectLiteral
  | TypeAlias, TypeAlias
  | Event, Event => true
  | _, _ => false
  end.
End ReflectionKind.

Module ReflectionFlag.
(** Modelled from the spec: the enumeration [ReflectionFlag] of the
    models, absent from the sources: the eleven tags of the flag set. *)
Inductive t :=
| Private | Protected | Public | Static | Exported | External
| Optional | ConstructorProperty | Abstract | Readonly | Ambient.
End ReflectionFlag.

(** Modelled from the spec: the [flags] object of a reflection, absent
    from the sources: exactly one boolean value per tag. *)
Record ReflectionFlags := mkFlags {
  isExported : bool;
  isPrivate : bool;
  isProtected : bool;
  isPublic : bool;
  isStatic : bool;
  isOptional : bool;
  isAbstract : bool;
  isReadonly : bool;
  isAmbient : bool;
  isExternal : bool;
  isConstructorProperty : bool
}.

Definition noFlags : ReflectionFlags :=
  mkFlags false false false false false false false false false false false.

(** Modelled from the spec: the reference-type constructor of
    [./reference], absent from the sources.  The spec makes it an opaque
    reference value built from a symbol and an is-base-type-reference
    flag; the value keeps both. *)
Record ReferenceType := mkReferenceType {
  refSymbol : option Symbol;
  refIncludeParent : bool
}.

Definition createReferenceType (sym : option Symbol) (includeParent : bool)
  : ReferenceType :=
  mkReferenceType sym includeParent.

(** Modelled from the spec: the signatures of the models, absent from the
    sources; each carries its own [inheritedFrom] and [overwrites]. *)
Record SignatureReflection := mkSignature {
  sigName : string;
  sigInheritedFrom : option ReferenceType;
  sigOverwrites : option ReferenceType
}.

(** Modelled from the spec: the declaration reflection of the models,
    absent from the sources, with the fields the builder reads and
    writes; an optional reference is [None] while it is not set. *)
Record DeclarationReflection := mkDeclaration {
  name : string;
  kind : ReflectionKind.t;
  flags : ReflectionFlags;
  inheritedFrom : option ReferenceType;
  overwrites : option ReferenceType;
  signatures : list SignatureReflection
}.

(** Modelled from the spec: the container reflection of the models,
    absent from the sources, as the builder sees the scope: its class
    ([instanceof ProjectReflection]), its kind, its flags and its children
    ([None] while the [children] property is still undefined). *)
Record ContainerReflection := mkContainer {
  containerIsProject : bool;
  containerKind : ReflectionKind.t;
  containerFlags : ReflectionFlags;
  children : option (list DeclarationReflection)
}.

Inductive Reflection :=
| IsContainer (c : ContainerReflection)
| NotContainer.

(** ** The conversion context

    [../context] and [../converter] are absent from the sources; the
    fields the builder reads are modelled from the spec. *)

Module SourceFileMode.
(** Modelled from the spec: the conversion-mode flag, absent from the
    sources: the single-file mode, and the other one. *)
Inductive t := File | Modules.

Definition eqb (a b : t) : bool :=
  match a, b with
  | File, File | Modules, Modules => true
  | _, _ => false
  end.
End SourceFileMode.

(** Modelled from the spec: the converter, absent from the sources, with
    the two settings the builder consults. *)
Record Converter := mkConverter {
  mode : SourceFileMode.t;
  excludeNotExported : bool
}.

(** What [context.trigger (Converter.EVENT_CREATE_DECLARATION, child, node)]
    hands to the listeners. *)
Record CreateDeclarationEvent := mkEvent {
  eventReflection : DeclarationReflection;
  eventNode : Node
}.

(** Modelled from the spec: the context, absent from the sources.
    [registered] is the node/reflection registry filled by
    [context.registerReflection], [triggered] the log of the events passed
    to [context.trigger], oldest first; the listeners themselves are
    outside of the builder. *)
Record Context := mkContext {
  scope : Reflection;
  isDeclaration : bool;
  contextIsExternal : bool;
  isInherit : bool;
  inheritParent : option Node;
  inherited : list string;
  converter : Converter;
  registered : list (DeclarationReflection * Node);
  triggered : list CreateDeclarationEvent
}.

(** The context once the scope object has been written to. *)
Definition withScope (context : Context) (s : Reflection) : Context :=
  mkContext s (isDeclaration context) (contextIsExternal context)
    (isInherit context) (inheritParent context) (inherited context)
    (converter context) (registered context) (triggered context).

(** Modelled from the spec: [context.registerReflection], absent from the
    sources: the reflection is entered in the registry with its node. *)
Definition registerReflection (context : Context)
    (reflection : DeclarationReflection) (node : Node) : Context :=
  mkContext (scope context) (isDeclaration context) (contextIsExternal context)
    (isInherit context) (inheritParent context) (inherited context)
    (converter context) (registered context ++ [(reflection, node)])
    (triggered context).

(** Modelled from the spec: [context.trigger] for the event
    [Converter.EVENT_CREATE_DECLARATION], absent from the sources: the
    notification sink receives the reflection and the node. *)
Definition trigger (context : Context)
    (reflection : DeclarationReflection) (node : Node) : Context :=
  mkContext (scope context) (isDeclaration context) (contextIsExternal context)
    (isInherit context) (inheritParent context) (inherited context)
    (converter context) (registered context)
    (triggered context ++ [mkEvent reflection node]).

(** ** What a call does: it returns, or it throws *)

Inductive Outcome (A : Type) :=
| Returned (a : A)
| Thrown (message : string).

Arguments Returned {A} a.
Arguments Thrown {A} message.

(** ** Arrays *)

(** [Array.prototype.indexOf] with [===] given by [eqb]: the first index
    of [x], or [-1]. *)
Fixpoint indexOfFrom {A : Type} (eqb : A -> A -> bool) (x : A) (l : list A)
    (i : Z) : Z :=
  match l with
  | [] => -1
  | y :: t => if eqb y x then i else indexOfFrom eqb x t (i + 1)
  end.

Definition indexOf {A : Type} (eqb : A -> A -> bool) (l : list A) (x : A) : Z :=
  indexOfFrom eqb x l 0.

(** ** Reflection methods used by the builder *)

(** Modelled from the spec: [Reflection.kindOf] of the models, absent from
    the sources; on a list of kinds it answers whether the kind of the
    reflection is one of them. *)
Definition kindOf (c : ContainerReflection) (kinds : list ReflectionKind.t)
  : bool :=
  existsb (ReflectionKind.eqb (containerKind c)) kinds.

(** Modelled from the spec: [Reflection.setFlag] of the models, absent
    from the sources; the spec gives every tag one value, independent of
    the others, so setting a flag writes that tag alone. *)
Definition setFlagOn (fl : ReflectionFlags) (flag : ReflectionFlag.t)
    (value : bool) : ReflectionFlags :=
  match flag with
  | ReflectionFlag.Exported =>
      mkFlags value (isPrivate fl) (isProtected fl) (isPublic fl) (isStatic fl)
        (isOptional fl) (isAbstract fl) (isReadonly fl) (isAmbient fl)
        (isExternal fl) (isConstructorProperty fl)
  | ReflectionFlag.Private =>
      mkFlags (isExported fl) value (isProtected fl) (isPublic fl) (isStatic fl)
        (isOptional fl) (isAbstract fl) (isReadonly fl) (isAmbient fl)
        (isExternal fl) (isConstructorProperty fl)
  | ReflectionFlag.Protected =>
      mkFlags (isExported fl) (isPrivate fl) value (isPublic fl) (isStatic fl)
        (isOptional fl) (isAbstract fl) (isReadonly fl) (isAmbient fl)
        (isExternal fl) (isConstructorProperty fl)
  | ReflectionFlag.Public =>
      mkFlags (isExported fl) (isPrivate fl) (isProtected fl) value (isStatic fl)
        (isOptional fl) (isAbstract fl) (isReadonly fl) (isAmbient fl)
        (isExternal fl) (isConstructorProperty fl)
  | ReflectionFlag.Static =>
      mkFlags (isExported fl) (isPrivate fl) (isProtected fl) (isPublic fl) value
        (isOptional fl) (isAbstract fl) (isReadonly fl) (isAmbient fl)
        (isExternal fl) (isConstructorProperty fl)
  | ReflectionFlag.Optional =>
      mkFlags (isExported fl) (isPrivate fl) (isProtected fl) (isPublic fl)
        (isStatic fl) value (isAbstract fl) (isReadonly fl) (isAmbient fl)
        (isExternal fl) (isConstructorProperty fl)
  | ReflectionFlag.Abstract =>
      mkFlags (isExported fl) (isPrivate fl) (isProtected fl) (isPublic fl)
        (isStatic fl) (isOptional fl) value (isReadonly fl) (isAmbient fl)
        (isExternal fl) (isConstructorProperty fl)
  | ReflectionFlag.Readonly =>
      mkFlags (isExported fl) (isPrivate fl) (isProtected fl) (isPublic fl)
        (isStatic fl) (isOptional fl) (isAbstract fl) value (isAmbient fl)
        (isExternal fl) (isConstructorProperty fl)
  | ReflectionFlag.Ambient =>
      mkFlags (isExported fl) (isPrivate fl) (isProtected fl) (isPublic fl)
        (isStatic fl) (isOptional fl) (isAbstract fl) (isReadonly fl) value
        (isExternal fl) (isConstructorProperty fl)
  | ReflectionFlag.External =>
      mkFlags (isExported fl) (isPrivate fl) (isProtected fl) (isPublic fl)
        (isStatic fl) (isOptional fl) (isAbstract fl) (isReadonly fl)
        (isAmbient fl) value (isConstructorProperty fl)
  | ReflectionFlag.ConstructorProperty =>
      mkFlags (isExported fl) (isPrivate fl) (isProtected fl) (isPublic fl)
        (isStatic fl) (isOptional fl) (isAbstract fl) (isReadonly fl)
        (isAmbient fl) (isExternal fl) value
  end.

Definition setFlag (reflection : DeclarationReflection)
    (flag : ReflectionFlag.t) (value : bool) : DeclarationReflection :=
  mkDeclaration (name reflection) (kind reflection)
    (setFlagOn (flags reflection) flag value)
    (inheritedFrom reflection) (overwrites reflection) (signatures reflection).

(** Modelled from the spec: the constructor [new DeclarationReflection
    (container, name, kind)] of the models, absent from the sources: a
    blank reflection of that name and kind, no flag set, no provenance,
    no signature. *)
Definition newDeclarationReflection (nm : string) (k : ReflectionKind.t)
  : DeclarationReflection :=
  mkDeclaration nm k noFlags None None [].

(** Modelled from the spec: [getAllSignatures] of the models, absent from
    the sources: the signatures the reflection carries, in order. *)
Definition getAllSignatures (reflection : DeclarationReflection)
  : list SignatureReflection :=
  signatures reflection.

(** ** [declaration.ts] *)

(** List of reflection kinds that never should be static. *)
Definition nonStaticKinds : list ReflectionKind.t :=
  [ ReflectionKind.Class;
    ReflectionKind.Interface;
    ReflectionKind.Module ].

(** List of reflection kinds for whom the exported flag of the container
    reflection should be considered. *)
Definition considerInheritedExportKinds : list ReflectionKind.t :=
  [ ReflectionKind.Accessor;
    ReflectionKind.Constructor;
    ReflectionKind.ConstructorSignature;
    ReflectionKind.EnumMember;
    ReflectionKind.Event;
    ReflectionKind.GetSignature;
    ReflectionKind.IndexSignature;
    ReflectionKind.Method;
    ReflectionKind.Parameter_;
    ReflectionKind.Property;
    ReflectionKind.SetSignature;
    ReflectionKind.TypeParameter ].

(** The [weights] of [mergeDeclarations]. *)
Definition weights : list ReflectionKind.t :=
  [ ReflectionKind.Module; ReflectionKind.Enum; ReflectionKind.Class ].

Definition setKind (reflection : DeclarationReflection) (k : ReflectionKind.t)
  : DeclarationReflection :=
  mkDeclaration (name reflection) k (flags reflection)
    (inheritedFrom reflection) (overwrites reflection) (signatures reflection).

(** [reflection.inheritedFrom = ref], then the same on every signature. *)
Definition setInheritedFrom (reflection : DeclarationReflection)
    (ref : ReferenceType) : DeclarationReflection :=
  mkDeclaration (name reflection) (kind reflection) (flags reflection)
    (Some ref) (overwrites reflection)
    (map (fun signature =>
            mkSignature (sigName signature) (Some ref) (sigOverwrites signature))
         (getAllSignatures reflection)).

(** [reflection.overwrites = ref], then the same on every signature. *)
Definition setOverwrites (reflection : DeclarationReflection)
    (ref : ReferenceType) : DeclarationReflection :=
  mkDeclaration (name reflection) (kind reflection) (flags reflection)
    (inheritedFrom reflection) (Some ref)
    (map (fun signature =>
            mkSignature (sigName signature) (sigInheritedFrom signature) (Some ref))
         (getAllSignatures reflection)).

(** Setup a newly created declaration reflection. *)
Definition setupDeclaration (context : Context)
    (reflection : DeclarationReflection) (node : Node) : DeclarationReflection :=
  let modifiers := combinedModifierFlags node in
  let reflection := setFlag reflection ReflectionFlag.External (contextIsExternal context) in
  let reflection := setFlag reflection ReflectionFlag.Protected (hasModifier modifiers ModifierFlags.Protected) in
  let reflection := setFlag reflection ReflectionFlag.Public (hasModifier modifiers ModifierFlags.Public) in
  let reflection := setFlag reflection ReflectionFlag.Optional (questionToken node) in
  let reflection := setFlag reflection ReflectionFlag.Abstract (hasModifier modifiers ModifierFlags.Abstract) in
  let reflection := setFlag reflection ReflectionFlag.Readonly (hasModifier modifiers ModifierFlags.Readonly) in
  let reflection := setFlag reflection ReflectionFlag.Ambient (hasModifier modifiers ModifierFlags.Ambient) in
  if isInherit context
     && (sameNode (parent node) (inheritParent context)
         || isConstructorProperty (flags reflection))
  then
    match inheritedFrom reflection with
    | None => setInheritedFrom reflection (createReferenceType (symbol node) true)
    | Some _ => reflection
    end
  else reflection.

(** The first half of [mergeDeclarations]: the kind of the reflection
    after the weights of the two kinds were compared. *)
Definition reconcileKind (reflection : DeclarationReflection)
    (k : ReflectionKind.t) : DeclarationReflection :=
  if negb (ReflectionKind.eqb (kind reflection) k) then
    let kindWeight := indexOf ReflectionKind.eqb weights k in
    let childKindWeight := indexOf ReflectionKind.eqb weights (kind reflection) in
    if (childKindWeight <? kindWeight)%Z then setKind reflection k else reflection
  else reflection.

(** The condition of the second [if] of [mergeDeclarations]. *)
Definition isOverride (context : Context) (reflection : DeclarationReflection)
    (node : Node) : bool :=
  isInherit context
  && negb (indexOf String.eqb (inherited context) (name reflection) =? -1)%Z
  && (sameNode (parent node) (inheritParent context)
      || isConstructorProperty (flags reflection)).

(** Merge the properties of the given TypeScript node with the pre
    existent reflection.  The first component is the reflection object
    after the call, the second what the call returns: that object, or
    [None] (null) if the merge is invalid. *)
Definition mergeDeclarations (context : Context)
    (reflection : DeclarationReflection) (node : Node) (k : ReflectionKind.t)
  : DeclarationReflection * option DeclarationReflection :=
  let reflection := reconcileKind reflection k in
  if isOverride context reflection node then
    match overwrites reflection with
    | None =>
        (setOverwrites reflection (createReferenceType (symbol node) true), None)
    | Some _ => (reflection, None)
    end
  else (reflection, Some reflection).

(** [if (!name) ...]: the name of the reflection, or [None] when the
    function returns null for want of one.  The empty string is falsy. *)
Definition resolveName (node : Node) (desiredName : option string)
  : option string :=
  match desiredName with
  | Some nm =>
      if negb (String.eqb nm "") then Some nm
      else
        match localSymbol node with
        | Some s => Some (symbolName s)
        | None => option_map symbolName (symbol node)
        end
  | None =>
      match localSymbol node with
      | Some s => Some (symbolName s)
      | None => option_map symbolName (symbol node)
      end
  end.

(** The exported state the node starts from: false, or the one of the
    container. *)
Definition inheritedExport (container : ContainerReflection) (node : Node)
    (k : ReflectionKind.t) : bool :=
  if kindOf container [ReflectionKind.Module; ReflectionKind.ExternalModule]
     || (((indexOf ReflectionKind.eqb considerInheritedExportKinds k =? -1)%Z
          || SyntaxKind.eqb (nodeKind node) SyntaxKind.VariableDeclaration
          || SyntaxKind.eqb (nodeKind node) SyntaxKind.FunctionDeclaration)
         && negb (kindOf container [ReflectionKind.ObjectLiteral; ReflectionKind.TypeLiteral]))
  then false
  else isExported (containerFlags container).

(** Test whether the node is exported.  Reading the modifiers of the
    parent of a variable declaration list that has none throws. *)
Definition resolveExported (context : Context) (container : ContainerReflection)
    (node : Node) (k : ReflectionKind.t) : Outcome bool :=
  let modifiers := combinedModifierFlags node in
  let isExported := inheritedExport container node k in
  if ReflectionKind.eqb k ReflectionKind.ExternalModule
     || isDeclaration context
     || hasModifier modifiers ModifierFlags.Ambient
     || (containerIsProject container
         && negb (isDeclaration context)
         && SourceFileMode.eqb (mode (converter context)) SourceFileMode.File)
  then Returned true
  else
    match parent node with
    | Some p =>
        if SyntaxKind.eqb (nodeKind p) SyntaxKind.VariableDeclarationList then
          match parent p with
          | Some pp =>
              let parentModifiers := combinedModifierFlags pp in
              Returned (isExported || hasModifier parentModifiers ModifierFlags.Export)
          | None => Thrown "TypeError"
          end
        else Returned (isExported || hasModifier modifiers ModifierFlags.Export)
    | None => Returned (isExported || hasModifier modifiers ModifierFlags.Export)
    end.

(** Test whether the node is static: the pair
    [(isConstructorProperty, isStatic)]. *)
Definition resolveStatic (container : ContainerReflection) (node : Node)
    (k : ReflectionKind.t) : bool * bool :=
  let modifiers := combinedModifierFlags node in
  if (indexOf ReflectionKind.eqb nonStaticKinds k =? -1)%Z then
    let isStatic := hasModifier modifiers ModifierFlags.Static in
    if ReflectionKind.eqb (containerKind container) ReflectionKind.Class then
      match parent node with
      | Some p =>
          if SyntaxKind.eqb (nodeKind p) SyntaxKind.Constructor then (true, isStatic)
          else if negb (SyntaxKind.eqb (nodeKind p) SyntaxKind.ClassDeclaration)
               then (false, true)
               else (false, isStatic)
      | None => (false, true)
      end
    else (false, isStatic)
  else (false, false).

(** The [children.forEach] of [createDeclaration]: every child of that
    name and static flag is assigned to [child] in turn, so the last one
    stays; with it, the position it has in [children]. *)
Fixpoint findChildFrom (nm : string) (static : bool)
    (l : list DeclarationReflection) (i : nat)
    (child : option (nat * DeclarationReflection))
  : option (nat * DeclarationReflection) :=
  match l with
  | [] => child
  | n :: t =>
      findChildFrom nm static t (S i)
        (if String.eqb (name n) nm && Bool.eqb (isStatic (flags n)) static
         then Some (i, n) else child)
  end.

Definition findChild (nm : string) (static : bool)
    (l : list DeclarationReflection) : option (nat * DeclarationReflection) :=
  findChildFrom nm static l 0%nat None.

Definition setChildren (container : ContainerReflection)
    (l : list DeclarationReflection) : ContainerReflection :=
  mkContainer (containerIsProject container) (containerKind container)
    (containerFlags container) (Some l).

(** Create a declaration reflection from the given TypeScript node.
    A returned pair is the result (the reflection, or [None] for null)
    and the context after the call. *)
Definition createDeclaration (context : Context) (node : Node)
    (desiredKind : ReflectionKind.t) (desiredName : option string)
  : Outcome (option DeclarationReflection * Context) :=
  match scope context with
  | NotContainer => Thrown "Expected container reflection."
  | IsContainer container =>
    match resolveName node desiredName with
    | None => Returned (None, context)
    | Some nm =>
      let modifiers := combinedModifierFlags node in
      match resolveExported context container node desiredKind with
      | Thrown message => Thrown message
      | Returned isExported =>
        if negb isExported && excludeNotExported (converter context)
        then Returned (None, context)
        else
          let isPrivate := hasModifier modifiers ModifierFlags.Private in
          if isInherit context && isPrivate then Returned (None, context)
          else
            let '(isConstructorProperty, isStatic) :=
              resolveStatic container node desiredKind in
            let children := default [] (children container) in
            match findChild nm isStatic children with
            | None =>
                let child := newDeclarationReflection nm desiredKind in
                let child := setFlag child ReflectionFlag.Static isStatic in
                let child := setFlag child ReflectionFlag.Private isPrivate in
                let child := setFlag child ReflectionFlag.ConstructorProperty isConstructorProperty in
                let child := setFlag child ReflectionFlag.Exported isExported in
                let child := setupDeclaration context child node in
                let context :=
                  withScope context
                    (IsContainer (setChildren container (children ++ [child]))) in
                let context := registerReflection context child node in
                let context := trigger context child node in
                Returned (Some child, context)
            | Some (i, child) =>
                let '(child, result) :=
                  mergeDeclarations context child node desiredKind in
                let context :=
                  withScope context
                    (IsContainer (setChildren container (<[i := child]> children))) in
                match result with
                | Some child => Returned (Some child, trigger context child node)
                | None => Returned (None, context)
                end
            end
      end
    end
  end.

(** ** Sequences of invocations *)

(** The children of the scope, [[]] while the property is undefined. *)
Definition childrenOf (context : Context) : list DeclarationReflection :=
  match scope context with
  | IsContainer container => default [] (children container)
  | NotContainer => []
  end.

(** One invocation of the builder by the conversion pipeline: the state
    the pipeline has put the context in, and the arguments. *)
Record Invocation := mkInvocation {
  invIsDeclaration : bool;
  invIsExternal : bool;
  invIsInherit : bool;
  invInheritParent : option Node;
  invInherited : list string;
  invConverter : Converter;
  invNode : Node;
  invKind : ReflectionKind.t;
  invName : option string
}.

(** The context as the pipeline has set it for the invocation; the scope,
    the registry and the events stay. *)
Definition enter (context : Context) (inv : Invocation) : Context :=
  mkContext (scope context) (invIsDeclaration inv) (invIsExternal inv)
    (invIsInherit inv) (invInheritParent inv) (invInherited inv)
    (invConverter inv) (registered context) (triggered context).

(** The context after the invocation; a call that throws has not touched
    it. *)
Definition invoke (context : Context) (inv : Invocation) : Context :=
  match createDeclaration (enter context inv) (invNode inv) (invKind inv) (invName inv) with
  | Returned (_, context') => context'
  | Thrown _ => enter context inv
  end.

(** A sequence of invocations on the same scope, in order. *)
Definition invokeAll (context : Context) (invs : list Invocation) : Context :=
  fold_left invoke invs context.

(** The key the registry looks children up by. *)
Definition childKey (r : DeclarationReflection) : string * bool :=
  (name r, isStatic (flags r)).

(** No two children share a [(name, isStatic)] pair. *)
Definition uniqueChildren (context : Context) : Prop :=
  NoDup (map childKey (childrenOf context)).

(** What a merge may change on a reflection: its kind, its [overwrites]
    and the [overwrites] of its signatures. *)
Definition sameButKindAndOverwrites (a b : DeclarationReflection) : Prop :=
  name a = name b
  /\ flags a = flags b
  /\ inheritedFrom a = inheritedFrom b
  /\ map sigName (signatures a) = map sigName (signatures b)
  /\ map sigInheritedFrom (signatures a) = map sigInheritedFrom (signatures b).

(** [weights.indexOf (k)] *)
Definition weightOf (k : ReflectionKind.t) : Z :=
  indexOf ReflectionKind.eqb weights k.

(** The reflection of the create path, flags applied and set up. *)
Definition freshChild (context : Context) (node : Node) (k : ReflectionKind.t)
    (nm : string) (exported constructorProperty static : bool)
  : DeclarationReflection :=
  let child := newDeclarationReflection nm k in
  let child := setFlag child ReflectionFlag.Static static in
  let child := setFlag child ReflectionFlag.Private
                 (hasModifier (combinedModifierFlags node) ModifierFlags.Private) in
  let child := setFlag child ReflectionFlag.ConstructorProperty constructorProperty in
  let child := setFlag child ReflectionFlag.Exported exported in
  setupDeclaration context child node.

(** A call that returns has taken one of three paths: it skipped the node
    and left the context alone; it created a child; or it merged the node
    into the child the lookup found. *)
Inductive Path (context : Context) (node : Node) (k : ReflectionKind.t)
    (dn : option string) : option DeclarationReflection -> Context -> Prop :=
| Skipped : Path context node k dn None context
| Created container nm exported child :
    scope context = IsContainer container ->
    resolveName node dn = Some nm ->
    resolveExported context container node k = Returned exported ->
    findChild nm (snd (resolveStatic container node k)) (childrenOf context) = None ->
    child = freshChild context node k nm exported
              (fst (resolveStatic container node k))
              (snd (resolveStatic container node k)) ->
    Path context node k dn (Some child)
      (trigger
         (registerReflection
            (withScope context
               (IsContainer (setChildren container (childrenOf context ++ [child]))))
            child node)
         child node)
| Merged container nm i child :
    scope context = IsContainer container ->
    resolveName node dn = Some nm ->
    findChild nm (snd (resolveStatic container node k)) (childrenOf context)
      = Some (i, child) ->
    Path context node k dn
      (snd (mergeDeclarations context child node k))
      (let context' :=
         withScope context
           (IsContainer
              (setChildren container
                 (<[i := fst (mergeDeclarations context child node k)]>
                    (childrenOf context)))) in
       match snd (mergeDeclarations context child node k) with
       | Some c => trigger context' c node
       | None => context'
       end).

(** Provenance is written once: what is set on the reflection, and with
    it what its signatures carry, is the same afterwards. *)
Definition writeOnce (before after : DeclarationReflection) : Prop :=
  (inheritedFrom before <> None ->
   inheritedFrom after = inheritedFrom before
   /\ map sigInheritedFrom (signatures after)
      = map sigInheritedFrom (signatures before))
  /\ (overwrites before <> None ->
      overwrites after = overwrites before
      /\ map sigOverwrites (signatures after)
         = map sigOverwrites (signatures before)).

(** The syntax kind of the parent of the node, if it has one. *)
Definition parentKind (node : Node) : option SyntaxKind.t :=
  option_map nodeKind (parent node).

(** ** Examples *)

Module Examples.

Definition plainConverter : Converter := mkConverter SourceFileMode.Modules false.
Definition strictConverter : Converter := mkConverter SourceFileMode.Modules true.

Definition classNode : Node :=
  mkNode 1 SyntaxKind.ClassDeclaration 0 None (Some (mkSymbol 1 "A")) None false.

Definition baseClassNode : Node :=
  mkNode 2 SyntaxKind.ClassDeclaration 0 None (Some (mkSymbol 2 "Base")) None false.

Definition constructorNode : Node :=
  mkNode 3 SyntaxKind.Constructor 0 (Some classNode) (Some (mkSymbol 3 "__constructor")) None false.

(** The parameter [x] of [constructor (public x)]. *)
Definition parameterX : Node :=
  mkNode 4 (SyntaxKind.Other 146) ModifierFlags.Public (Some constructorNode)
    (Some (mkSymbol 4 "x")) None false.

(** The member [x: number] of the class body. *)
Definition propertyX : Node :=
  mkNode 5 (SyntaxKind.Other 149) 0 (Some classNode) (Some (mkSymbol 5 "x")) None false.

(** [private static m() {}] in the class body. *)
Definition privateStaticMethod : Node :=
  mkNode 6 (SyntaxKind.Other 151)
    (Z.lor ModifierFlags.Private ModifierFlags.Static) (Some classNode)
    (Some (mkSymbol 6 "m")) None false.

(** The method [foo] of the base class. *)
Definition baseFoo : Node :=
  mkNode 7 (SyntaxKind.Other 151) 0 (Some baseClassNode)
    (Some (mkSymbol 7 "foo")) None false.

(** [constructor (public x)] of the base class, and its parameter. *)
Definition baseConstructorNode : Node :=
  mkNode 9 SyntaxKind.Constructor 0 (Some baseClassNode)
    (Some (mkSymbol 9 "__constructor")) None false.

Definition baseParameterX : Node :=
  mkNode 10 (SyntaxKind.Other 146) ModifierFlags.Public (Some baseConstructorNode)
    (Some (mkSymbol 10 "x")) None false.

Definition classContainer (l : option (list DeclarationReflection))
  : ContainerReflection :=
  mkContainer false ReflectionKind.Class noFlags l.

Definition contextOf (c : ContainerReflection) (cv : Converter) : Context :=
  mkContext (IsContainer c) false false false None [] cv [] [].

Definition inheritContextOf (c : ContainerReflection) (names : list string)
  : Context :=
  mkContext (IsContainer c) false false true (Some baseClassNode) names
    plainConverter [] [].

Definition plainInvocation (node : Node) (k : ReflectionKind.t) : Invocation :=
  mkInvocation false false false None [] plainConverter node k None.

(** An invocation made while the members of the base class are inherited
    by a class that declares the given names itself. *)
Definition inheritInvocation (names : list string) (node : Node)
    (k : ReflectionKind.t) : Invocation :=
  mkInvocation false false true (Some baseClassNode) names plainConverter node k None.

End Examples.

(** ** Further notions and examples *)

(** The keys of the reflections in the registry, in order of entry. *)
Definition registryKeys (context : Context) : list (string * bool) :=
  map (fun entry => childKey (fst entry)) (registered context).

(** The export value is forced: the three conditions of the first branch
    that do not look at the modifiers of the node. *)
Definition exportForced (context : Context) (container : ContainerReflection)
    (k : ReflectionKind.t) : Prop :=
  k = ReflectionKind.ExternalModule
  \/ isDeclaration context = true
  \/ (containerIsProject container = true
      /\ mode (converter context) = SourceFileMode.File).

(** The explicit name is missing: undefined, or the empty string. *)
Definition noExplicitName (dn : option string) : Prop :=
  dn = None \/ dn = Some "".

Module MoreExamples.

Definition moduleContainer (exported : bool) : ContainerReflection :=
  mkContainer false ReflectionKind.Module
    (setFlagOn noFlags ReflectionFlag.Exported exported) None.

Definition projectContainer : ContainerReflection :=
  mkContainer true ReflectionKind.Global noFlags None.

Definition exportedClassContainer : ContainerReflection :=
  mkContainer false ReflectionKind.Class
    (setFlagOn noFlags ReflectionFlag.Exported true) None.

Definition fileConverter : Converter := mkConverter SourceFileMode.File true.

Definition sourceFileNode : Node :=
  mkNode 30 (SyntaxKind.Other 265) 0 None (Some (mkSymbol 30 "file")) None false.

(** [export function f () {}] at the top of a namespace. *)
Definition exportedFunction : Node :=
  mkNode 31 SyntaxKind.FunctionDeclaration ModifierFlags.Export
    (Some sourceFileNode) (Some (mkSymbol 31 "f")) None false.

(** [namespace f {}], merged with the function of that name. *)
Definition namespaceF : Node :=
  mkNode 32 (SyntaxKind.Other 233) 0 (Some sourceFileNode)
    (Some (mkSymbol 32 "f")) None false.

(** [m () {}] in the class body. *)
Definition methodM : Node :=
  mkNode 33 (SyntaxKind.Other 151) 0 (Some Examples.classNode)
    (Some (mkSymbol 33 "m")) None false.

(** [protected abstract readonly y?: number] in the class body. *)
Definition propertyY : Node :=
  mkNode 34 (SyntaxKind.Other 149)
    (Z.lor ModifierFlags.Protected
       (Z.lor ModifierFlags.Abstract ModifierFlags.Readonly))
    (Some Examples.classNode) (Some (mkSymbol 34 "y")) None true.

(** A node that has a local symbol beside its symbol. *)
Definition defaultExport : Node :=
  mkNode 35 (SyntaxKind.Other 229) ModifierFlags.Export (Some sourceFileNode)
    (Some (mkSymbol 35 "default")) (Some (mkSymbol 36 "Widget")) false.

(** A node without any symbol. *)
Definition anonymousNode : Node :=
  mkNode 37 (SyntaxKind.Other 186) 0 (Some sourceFileNode) None None false.

Definition twoOfAKind : list DeclarationReflection :=
  [ mkDeclaration "a" ReflectionKind.Property noFlags None None [];
    mkDeclaration "b" ReflectionKind.Property noFlags None None [];
    mkDeclaration "a" ReflectionKind.Method noFlags None None [] ].

End MoreExamples.

(** * Properties *)

Lemma ReflectionKind_eqb_eq a b : ReflectionKind.eqb a b = true <-> a = b.
Proof.
  split.
  - destruct a, b; simpl; intros H; try reflexivity; discriminate.
  - intros ->. destruct b; reflexivity.
Qed.

(** ** The lookup *)

Section Lookup.

Variables (nm : string) (static : bool).

Lemma childKey_matches (n : DeclarationReflection) :
  String.eqb (name n) nm && Bool.eqb (isStatic (flags n)) static = true
  <-> childKey n = (nm, static).
Proof.
  unfold childKey. rewrite andb_true_iff, String.eqb_eq, Bool.eqb_true_iff.
  split.
  - intros [-> ->]. reflexivity.
  - intros H. injection H as -> ->. split; reflexivity.
Qed.

Lemma childKey_matches_false (n : DeclarationReflection) :
  String.eqb (name n) nm && Bool.eqb (isStatic (flags n)) static = false
  <-> childKey n <> (nm, static).
Proof.
  rewrite <- childKey_matches. symmetry. apply not_true_iff_false.
Qed.

Lemma findChildFrom_None l : forall i child,
  findChildFrom nm static l i child = None
  <-> child = None /\ ~ In (nm, static) (map childKey l).
Proof.
  induction l as [|n t IH]; intros i child; simpl.
  - tauto.
  - rewrite IH.
    destruct (String.eqb (name n) nm && Bool.eqb (isStatic (flags n)) static) eqn:E.
    + apply childKey_matches in E. split; [intros [? _]; discriminate|].
      intros [_ H]. exfalso. apply H. left. exact E.
    + apply childKey_matches_false in E. split.
      * intros [-> H]. split; [reflexivity|]. intros [H'|H']; auto.
      * intros [-> H]. split; [reflexivity|]. intros H'. apply H. right. exact H'.
Qed.

Lemma findChildFrom_Some l : forall i child j c,
  findChildFrom nm static l i child = Some (j, c) ->
  child = Some (j, c)
  \/ ((i <= j)%nat /\ l !! (j - i)%nat = Some c /\ childKey c = (nm, static)).
Proof.
  induction l as [|n t IH]; intros i child j c; simpl.
  - intros ->. left. reflexivity.
  - intros H. apply IH in H. destruct H as [H | (Hle & Hl & Hk)].
    + destruct (String.eqb (name n) nm && Bool.eqb (isStatic (flags n)) static) eqn:E.
      * injection H as <- <-. right. apply childKey_matches in E.
        rewrite Nat.sub_diag. simpl. auto.
      * left. exact H.
    + right. split; [lia|]. split; [|exact Hk].
      replace (j - i)%nat with (S (j - S i)) by lia. exact Hl.
Qed.

Lemma findChild_None l :
  findChild nm static l = None <-> ~ In (nm, static) (map childKey l).
Proof.
  unfold findChild. rewrite findChildFrom_None. tauto.
Qed.

Lemma findChild_Some l j c :
  findChild nm static l = Some (j, c) ->
  l !! j = Some c /\ childKey c = (nm, static).
Proof.
  unfold findChild. intros H. apply findChildFrom_Some in H.
  destruct H as [H | (_ & Hl & Hk)]; [discriminate|].
  rewrite Nat.sub_0_r in Hl. auto.
Qed.

(** A child of that key is found as soon as there is one. *)
Lemma findChild_In l :
  In (nm, static) (map childKey l) ->
  exists j c, findChild nm static l = Some (j, c).
Proof.
  intros H. destruct (findChild nm static l) as [[j c]|] eqn:E.
  - eauto.
  - apply findChild_None in E. contradiction.
Qed.

End Lookup.

(** ** What the three functions keep *)

Lemma map_insert_same {A B : Type} (f : A -> B) (l : list A) (i : nat) (x y : A) :
  l !! i = Some x -> f y = f x -> map f (<[i := y]> l) = map f l.
Proof.
  revert i. induction l as [|a t IH]; intros [|i]; simpl; intros H E;
    try discriminate.
  - injection H as ->. rewrite E. reflexivity.
  - f_equal. apply IH; assumption.
Qed.

Lemma setupDeclaration_name context r node :
  name (setupDeclaration context r node) = name r.
Proof.
  unfold setupDeclaration.
  repeat match goal with |- context [if ?b then _ else _] => destruct b end;
    try reflexivity;
    match goal with |- context [match ?o with Some _ => _ | None => _ end] =>
      destruct o end; reflexivity.
Qed.

Lemma setupDeclaration_kind context r node :
  kind (setupDeclaration context r node) = kind r.
Proof.
  unfold setupDeclaration.
  repeat match goal with |- context [if ?b then _ else _] => destruct b end;
    try reflexivity;
    match goal with |- context [match ?o with Some _ => _ | None => _ end] =>
      destruct o end; reflexivity.
Qed.

(** [setupDeclaration] writes seven flags and keeps the four that
    [createDeclaration] has set. *)
Lemma setupDeclaration_flags context r node :
  let fl := flags (setupDeclaration context r node) in
  isStatic fl = isStatic (flags r)
  /\ isPrivate fl = isPrivate (flags r)
  /\ isConstructorProperty fl = isConstructorProperty (flags r)
  /\ isExported fl = isExported (flags r).
Proof.
  unfold setupDeclaration.
  repeat match goal with |- context [if ?b then _ else _] => destruct b end;
    try (simpl; tauto);
    match goal with |- context [match ?o with Some _ => _ | None => _ end] =>
      destruct o end; simpl; tauto.
Qed.

Lemma reconcileKind_same r k :
  sameButKindAndOverwrites r (reconcileKind r k)
  /\ overwrites (reconcileKind r k) = overwrites r
  /\ signatures (reconcileKind r k) = signatures r.
Proof.
  unfold reconcileKind, sameButKindAndOverwrites.
  destruct (negb _); [destruct (_ <? _)%Z|]; simpl; tauto.
Qed.

Lemma mergeDeclarations_same context r node k :
  sameButKindAndOverwrites r (fst (mergeDeclarations context r node k)).
Proof.
  unfold mergeDeclarations.
  destruct (reconcileKind_same r k) as ((Hn & Hf & Hi & Hs1 & Hs2) & _ & _).
  destruct (isOverride _ _ _); [destruct (overwrites _)|]; simpl;
    unfold sameButKindAndOverwrites, getAllSignatures; simpl;
    rewrite ?map_map; simpl; tauto.
Qed.

(** What [mergeDeclarations] returns is the reflection object itself. *)
Lemma mergeDeclarations_result context r node k :
  snd (mergeDeclarations context r node k) = None
  \/ snd (mergeDeclarations context r node k)
     = Some (fst (mergeDeclarations context r node k)).
Proof.
  unfold mergeDeclarations.
  destruct (isOverride _ _ _); [destruct (overwrites _)|]; simpl; auto.
Qed.

Lemma mergeDeclarations_childKey context r node k :
  childKey (fst (mergeDeclarations context r node k)) = childKey r.
Proof.
  destruct (mergeDeclarations_same context r node k) as (Hn & Hf & _).
  unfold childKey. rewrite <- Hn, <- Hf. reflexivity.
Qed.

(** ** The paths through [createDeclaration] *)


Lemma createDeclaration_path context node k dn result context' :
  createDeclaration context node k dn = Returned (result, context') ->
  Path context node k dn result context'.
Proof.
  unfold createDeclaration.
  destruct (scope context) as [container|] eqn:Hscope; [|discriminate].
  destruct (resolveName node dn) as [nm|] eqn:Hname.
  2:{ intros H. injection H as <- <-. constructor. }
  destruct (resolveExported context container node k) as [exported|] eqn:Hexp;
    [|discriminate].
  destruct (negb exported && excludeNotExported (converter context)).
  { intros H. injection H as <- <-. constructor. }
  destruct (isInherit context && _).
  { intros H. injection H as <- <-. constructor. }
  assert (Hch : default [] (children container) = childrenOf context).
  { unfold childrenOf. rewrite Hscope. reflexivity. }
  rewrite Hch.
  destruct (resolveStatic container node k) as [cp st] eqn:Hst.
  destruct (findChild nm st (childrenOf context)) as [[i child]|] eqn:Hfind.
  - destruct (mergeDeclarations context child node k) as [child' res] eqn:Hm.
    intros H.
    pose proof (Merged context node k dn container nm i child Hscope Hname) as P.
    rewrite Hst in P. simpl in P. specialize (P Hfind).
    rewrite Hm in P. simpl in P.
    destruct res; injection H as <- <-; exact P.
  - intros H. injection H as <- <-.
    eapply (Created context node k dn container nm exported); eauto.
    + rewrite Hst. exact Hfind.
    + rewrite Hst. reflexivity.
Qed.

(** The call returns as soon as the scope is a container and the export
    resolution does not throw. *)
Lemma createDeclaration_returns context container node k dn exported :
  scope context = IsContainer container ->
  resolveExported context container node k = Returned exported ->
  exists result context',
    createDeclaration context node k dn = Returned (result, context').
Proof.
  intros Hs He. unfold createDeclaration. rewrite Hs.
  destruct (resolveName node dn) as [nm|]; [|eauto].
  rewrite He.
  destruct (negb exported && _); [eauto|].
  destruct (isInherit context && _); [eauto|].
  destruct (resolveStatic container node k) as [cp st].
  destruct (findChild nm st _) as [[i child]|]; [|eauto].
  destruct (mergeDeclarations context child node k) as [child' [r|]]; eauto.
Qed.

Lemma childrenOf_withScope context container l :
  childrenOf (withScope context (IsContainer (setChildren container l))) = l.
Proof. reflexivity. Qed.

Lemma childrenOf_trigger context r node :
  childrenOf (trigger context r node) = childrenOf context.
Proof. reflexivity. Qed.

Lemma childrenOf_registerReflection context r node :
  childrenOf (registerReflection context r node) = childrenOf context.
Proof. reflexivity. Qed.

Lemma freshChild_childKey context node k nm exported cp st :
  childKey (freshChild context node k nm exported cp st) = (nm, st).
Proof.
  unfold freshChild, childKey.
  rewrite setupDeclaration_name.
  destruct (setupDeclaration_flags context
              (setFlag (setFlag (setFlag (setFlag (newDeclarationReflection nm k)
                 ReflectionFlag.Static st) ReflectionFlag.Private
                 (hasModifier (combinedModifierFlags node) ModifierFlags.Private))
                 ReflectionFlag.ConstructorProperty cp)
                 ReflectionFlag.Exported exported) node) as (-> & _).
  reflexivity.
Qed.

(** The children after a call, path by path. *)
Lemma Path_children context node k dn result context' :
  Path context node k dn result context' ->
  childrenOf context' = childrenOf context
  \/ (exists child,
        result = Some child
        /\ childrenOf context' = childrenOf context ++ [child]
        /\ resolveName node dn = Some (name child)
        /\ ~ In (childKey child) (map childKey (childrenOf context)))
  \/ (exists i child child',
        childrenOf context !! i = Some child
        /\ childKey child' = childKey child
        /\ childrenOf context' = <[i := child']> (childrenOf context)).
Proof.
  intros [| container nm exported child Hs Hn He Hf Hc
          | container nm i child Hs Hn Hf].
  - left. reflexivity.
  - right. left. exists child. split; [reflexivity|].
    assert (Hk : childKey child = (nm, snd (resolveStatic container node k))).
    { subst child. apply freshChild_childKey. }
    split; [reflexivity|]. split.
    + injection Hk as <- _. exact Hn.
    + rewrite Hk. apply findChild_None. exact Hf.
  - right. right.
    apply findChild_Some in Hf. destruct Hf as [Hl Hk].
    exists i, child, (fst (mergeDeclarations context child node k)).
    split; [exact Hl|]. split; [apply mergeDeclarations_childKey|].
    simpl. destruct (snd (mergeDeclarations context child node k)); reflexivity.
Qed.

Lemma Path_uniqueChildren context node k dn result context' :
  Path context node k dn result context' ->
  uniqueChildren context -> uniqueChildren context'.
Proof.
  intros P U. unfold uniqueChildren in *.
  destruct (Path_children _ _ _ _ _ _ P)
    as [-> | [(child & _ & -> & _ & Hnew) | (i & child & child' & Hl & Hk & ->)]].
  - exact U.
  - rewrite map_app. simpl. apply NoDup_app. split; [exact U|].
    split.
    + intros x Hx Hx'. apply list_elem_of_In in Hx, Hx'.
      destruct Hx' as [<-|[]]. contradiction.
    + apply NoDup_singleton.
  - rewrite (map_insert_same childKey _ i child child' Hl Hk). exact U.
Qed.

(** ** The registry invariant *)

Lemma invoke_cases context inv :
  (exists message,
     createDeclaration (enter context inv) (invNode inv) (invKind inv) (invName inv)
       = Thrown message
     /\ invoke context inv = enter context inv)
  \/ (exists result,
        createDeclaration (enter context inv) (invNode inv) (invKind inv) (invName inv)
          = Returned (result, invoke context inv)).
Proof.
  unfold invoke.
  destruct (createDeclaration _ _ _ _) as [[result context']|message]; eauto.
Qed.

Lemma invoke_uniqueChildren context inv :
  uniqueChildren context -> uniqueChildren (invoke context inv).
Proof.
  intros U. destruct (invoke_cases context inv) as [(m & _ & ->) | (result & H)].
  - exact U.
  - apply createDeclaration_path in H.
    eapply Path_uniqueChildren; [exact H|]. exact U.
Qed.

Lemma invokeAll_uniqueChildren invs : forall context,
  uniqueChildren context -> uniqueChildren (invokeAll context invs).
Proof.
  induction invs as [|inv invs IH]; intros context U; simpl.
  - exact U.
  - apply IH. apply invoke_uniqueChildren. exact U.
Qed.

(** A scope that has no children yet satisfies the invariant. *)
Lemma uniqueChildren_initially context container :
  scope context = IsContainer container ->
  children container = None ->
  uniqueChildren context.
Proof.
  intros Hs Hc. unfold uniqueChildren, childrenOf. rewrite Hs, Hc.
  simpl. apply NoDup_nil_2.
Qed.

(** C1. For every container whose children are pairwise distinct in
    [(name, isStatic)] (as those of a container without children are) and
    every sequence of invocations of [createDeclaration] on it, the
    children are still pairwise distinct in [(name, isStatic)] after the
    sequence and after one more invocation; and that invocation either
    leaves the number of children alone or appends one child, which it
    does only when the scan over the existing children found none of the
    resolved name and static flag. *)
Theorem createDeclaration_children_unique :
  forall (context : Context) (invs : list Invocation) (inv : Invocation),
    uniqueChildren context ->
    let before := invokeAll context invs in
    let after := invoke before inv in
    uniqueChildren before
    /\ uniqueChildren after
    /\ (length (childrenOf after) = length (childrenOf before)
        \/ exists container nm child,
             scope before = IsContainer container
             /\ resolveName (invNode inv) (invName inv) = Some nm
             /\ findChild nm
                  (snd (resolveStatic container (invNode inv) (invKind inv)))
                  (childrenOf before) = None
             /\ childKey child
                = (nm, snd (resolveStatic container (invNode inv) (invKind inv)))
             /\ childrenOf after = childrenOf before ++ [child]).
Proof.
  intros context invs inv U before after.
  assert (Ub : uniqueChildren before) by (apply invokeAll_uniqueChildren; exact U).
  split; [exact Ub|]. split; [apply invoke_uniqueChildren; exact Ub|].
  subst after. clearbody before.
  destruct (invoke_cases before inv) as [(m & _ & ->) | (result & H)].
  - left. reflexivity.
  - apply createDeclaration_path in H.
    destruct H as [ | container nm exported child Hs Hn He Hf Hch
                    | container nm i child Hs Hn Hf ].
    + left. reflexivity.
    + right. exists container, nm, child. subst child.
      rewrite freshChild_childKey. auto.
    + left.
      destruct (snd (mergeDeclarations (enter before inv) child (invNode inv) (invKind inv)));
        cbv zeta; rewrite ?childrenOf_trigger, childrenOf_withScope, length_insert;
        reflexivity.
Qed.


(** A class without children receives a property [x], the constructor
    parameter [x] (a merge), then a private static method. *)
Lemma createDeclaration_children_unique_witness :
  let context := Examples.contextOf (Examples.classContainer None) Examples.plainConverter in
  let invs := [ Examples.plainInvocation Examples.propertyX ReflectionKind.Property;
                Examples.plainInvocation Examples.parameterX ReflectionKind.Property ] in
  let inv := Examples.plainInvocation Examples.privateStaticMethod ReflectionKind.Method in
  uniqueChildren context
  /\ uniqueChildren (invoke (invokeAll context invs) inv)
  /\ length (childrenOf (invoke (invokeAll context invs) inv)) = 2%nat.
Proof.
  intros context invs inv.
  assert (U : uniqueChildren context) by (vm_compute; constructor).
  split; [exact U|].
  split; [|reflexivity].
  apply (createDeclaration_children_unique context invs inv U).
Defined.

(** ** Kind reconciliation *)


Lemma weightOf_table k :
  weightOf k
  = match k with
    | ReflectionKind.Module => 0
    | ReflectionKind.Enum => 1
    | ReflectionKind.Class => 2
    | _ => -1
    end.
Proof. destruct k; reflexivity. Qed.

Lemma weightOf_unranked k : weightOf k = -1 <-> ~ In k weights.
Proof.
  rewrite weightOf_table. unfold weights. simpl.
  destruct k; split; intros H; try lia; try discriminate;
    try (intros [E|[E|[E|[]]]]; discriminate);
    exfalso; apply H; auto.
Qed.

Lemma reconcileKind_kind r k :
  kind (reconcileKind r k)
  = if (weightOf (kind r) <? weightOf k)%Z then k else kind r.
Proof.
  unfold reconcileKind, weightOf.
  destruct (ReflectionKind.eqb (kind r) k) eqn:E; simpl.
  - apply ReflectionKind_eqb_eq in E. subst k.
    rewrite Z.ltb_irrefl. reflexivity.
  - destruct (_ <? _)%Z; reflexivity.
Qed.

Lemma mergeDeclarations_kind context r node k :
  kind (fst (mergeDeclarations context r node k)) = kind (reconcileKind r k).
Proof.
  unfold mergeDeclarations.
  destruct (isOverride _ _ _); [destruct (overwrites _)|]; reflexivity.
Qed.

(** C2, as stated, fails: a kind that is not in the ranking list does not
    always leave the existing kind untouched.  A reflection of kind
    Function (a function that a namespace of the same name is merged
    into) is not in the list, and the incoming kind Module replaces it. *)
Lemma unranked_existing_kind_is_replaced :
  let context := Examples.contextOf (Examples.classContainer None) Examples.plainConverter in
  let r := newDeclarationReflection "f" ReflectionKind.Function in
  ~ In (kind r) weights
  /\ kind (fst (mergeDeclarations context r Examples.classNode ReflectionKind.Module))
     = ReflectionKind.Module
  /\ kind (fst (mergeDeclarations context r Examples.classNode ReflectionKind.Module))
     <> kind r.
Proof.
  intros context r. split; [|split].
  - apply weightOf_unranked. reflexivity.
  - reflexivity.
  - discriminate.
Qed.

(** C2, amended.  The weight of a kind is its index in
    [Module; Enum; Class] and is [-1] for every other kind.  A merge
    changes the kind of the existing reflection, to the incoming kind,
    exactly when the weight of the incoming kind is strictly greater than
    the weight of the existing one.  So an incoming kind that is not in
    the list never changes the kind, an existing kind that is not in the
    list is replaced by every incoming kind that is, Module merged with
    Class becomes Class, and Class merged with Module stays Class. *)
Theorem mergeDeclarations_kind_precedence :
  forall (context : Context) (r : DeclarationReflection) (node : Node)
         (k : ReflectionKind.t),
    let r' := fst (mergeDeclarations context r node k) in
    (kind r' = if (weightOf (kind r) <? weightOf k)%Z then k else kind r)
    /\ (kind r' <> kind r <-> (weightOf (kind r) < weightOf k)%Z)
    /\ (~ In k weights -> kind r' = kind r)
    /\ (~ In (kind r) weights -> In k weights -> kind r' = k)
    /\ (weightOf ReflectionKind.Module < weightOf ReflectionKind.Enum
        < weightOf ReflectionKind.Class)%Z
    /\ (kind r = ReflectionKind.Module -> k = ReflectionKind.Class ->
        kind r' = ReflectionKind.Class
        /\ forall context2 node2,
             kind (fst (mergeDeclarations context2 r' node2 ReflectionKind.Module))
             = ReflectionKind.Class).
Proof.
  intros context r node k r'.
  assert (E : kind r' = if (weightOf (kind r) <? weightOf k)%Z then k else kind r).
  { subst r'. rewrite mergeDeclarations_kind. apply reconcileKind_kind. }
  split; [exact E|]. split; [|split; [|split; [|split]]].
  - rewrite E. destruct (Z.ltb_spec (weightOf (kind r)) (weightOf k)) as [L|L].
    + split; [intros _; exact L|]. intros _ ->. lia.
    + split; [intros H; congruence | intros H; lia].
  - intros Hk. apply weightOf_unranked in Hk. rewrite E, Hk.
    destruct (Z.ltb_spec (weightOf (kind r)) (-1)) as [L|L]; [|reflexivity].
    rewrite weightOf_table in L. destruct (kind r); lia.
  - intros Hr Hk. apply weightOf_unranked in Hr. rewrite E, Hr.
    destruct (Z.ltb_spec (-1) (weightOf k)) as [L|L]; [reflexivity|].
    exfalso. assert (weightOf k = -1) as Hu.
    { rewrite weightOf_table in *. destruct k; lia. }
    apply weightOf_unranked in Hu. contradiction.
  - rewrite !weightOf_table. lia.
  - intros Hr Hk. rewrite Hr, Hk in E. split; [exact E|].
    intros context2 node2. rewrite mergeDeclarations_kind, reconcileKind_kind, E.
    reflexivity.
Qed.

(** A namespace reflection merged with a class, then with a namespace. *)
Lemma mergeDeclarations_kind_precedence_witness :
  let context := Examples.contextOf (Examples.classContainer None) Examples.plainConverter in
  let r := newDeclarationReflection "A" ReflectionKind.Module in
  let r' := fst (mergeDeclarations context r Examples.classNode ReflectionKind.Class) in
  kind r' = ReflectionKind.Class
  /\ kind (fst (mergeDeclarations context r' Examples.classNode ReflectionKind.Module))
     = ReflectionKind.Class
  /\ (~ In ReflectionKind.Function weights ->
      kind (fst (mergeDeclarations context r Examples.classNode ReflectionKind.Function))
      = kind r).
Proof.
  intros context r r'.
  pose proof (mergeDeclarations_kind_precedence context r Examples.classNode
                ReflectionKind.Class) as (_ & _ & _ & _ & _ & H).
  destruct (H eq_refl eq_refl) as [H1 H2].
  split; [exact H1|]. split; [apply H2|].
  pose proof (mergeDeclarations_kind_precedence context r Examples.classNode
                ReflectionKind.Function) as (_ & _ & H3 & _).
  exact H3.
Defined.

(** ** Exclusions *)

(** C3. When the resolved export value of the node is false and the
    converter excludes what is not exported, [createDeclaration] returns
    null and leaves the context as it was, whatever the private and static
    modifiers of the node, the kind of the container and the inheritance
    state of the context are: the exclusion comes before they are looked
    at.  In particular, in a container whose exported flag is false, a
    private static method converted as kind Method is excluded (the
    scenario is the one of a class member: the context is not in
    declaration mode, the container is not the project, and the parent of
    the node is not a variable declaration list). *)
Theorem createDeclaration_excludes_not_exported :
  forall (context : Context) (container : ContainerReflection) (node : Node)
         (k : ReflectionKind.t) (dn : option string),
    scope context = IsContainer container ->
    excludeNotExported (converter context) = true ->
    (resolveExported context container node k = Returned false ->
     createDeclaration context node k dn = Returned (None, context))
    /\ (isExported (containerFlags container) = false ->
        combinedModifierFlags node
          = Z.lor ModifierFlags.Private ModifierFlags.Static ->
        k = ReflectionKind.Method ->
        isDeclaration context = false ->
        containerIsProject container = false ->
        parentKind node <> Some SyntaxKind.VariableDeclarationList ->
        resolveExported context container node k = Returned false
        /\ createDeclaration context node k dn = Returned (None, context)).
Proof.
  intros context container node k dn Hs Hx.
  assert (G : resolveExported context container node k = Returned false ->
              createDeclaration context node k dn = Returned (None, context)).
  { intros He. unfold createDeclaration. rewrite Hs.
    destruct (resolveName node dn); [|reflexivity].
    rewrite He, Hx. reflexivity. }
  split; [exact G|].
  intros Hc Hm -> Hd Hp Hv.
  assert (He : resolveExported context container node ReflectionKind.Method
               = Returned false).
  { assert (Hi : inheritedExport container node ReflectionKind.Method = false).
    { unfold inheritedExport. rewrite Hc. destruct (_ || _); reflexivity. }
    unfold resolveExported. rewrite Hi, Hm, Hd, Hp.
    replace (hasModifier (Z.lor ModifierFlags.Private ModifierFlags.Static)
               ModifierFlags.Ambient) with false by reflexivity.
    replace (hasModifier (Z.lor ModifierFlags.Private ModifierFlags.Static)
               ModifierFlags.Export) with false by reflexivity.
    simpl.
    destruct (parent node) as [p|] eqn:Hpar; [|reflexivity].
    destruct (SyntaxKind.eqb (nodeKind p) SyntaxKind.VariableDeclarationList) eqn:E;
      [|reflexivity].
    exfalso. apply Hv. unfold parentKind. rewrite Hpar. simpl.
    destruct (nodeKind p); try discriminate.
    reflexivity. }
  split; [exact He | exact (G He)].
Qed.

(** The scenario of C3: a private static method in a class that is not
    exported, with a converter that excludes what is not exported. *)
Lemma createDeclaration_excludes_not_exported_witness :
  let context :=
    Examples.contextOf (Examples.classContainer None) Examples.strictConverter in
  createDeclaration context Examples.privateStaticMethod ReflectionKind.Method None
  = Returned (None, context).
Proof.
  intros context.
  destruct (createDeclaration_excludes_not_exported context
              (Examples.classContainer None) Examples.privateStaticMethod
              ReflectionKind.Method None eq_refl eq_refl) as [_ H].
  apply H; try reflexivity. discriminate.
Defined.

Lemma freshChild_flags context node k nm exported cp st :
  let fl := flags (freshChild context node k nm exported cp st) in
  isStatic fl = st
  /\ isPrivate fl = hasModifier (combinedModifierFlags node) ModifierFlags.Private
  /\ isConstructorProperty fl = cp
  /\ isExported fl = exported.
Proof.
  unfold freshChild.
  destruct (setupDeclaration_flags context
              (setFlag (setFlag (setFlag (setFlag (newDeclarationReflection nm k)
                 ReflectionFlag.Static st) ReflectionFlag.Private
                 (hasModifier (combinedModifierFlags node) ModifierFlags.Private))
                 ReflectionFlag.ConstructorProperty cp)
                 ReflectionFlag.Exported exported) node) as (-> & -> & -> & ->).
  simpl. tauto.
Qed.

(** A child that a call has appended is the fresh child of the create
    path. *)
Lemma Path_appended context node k dn child context' :
  Path context node k dn (Some child) context' ->
  childrenOf context' = childrenOf context ++ [child] ->
  exists container nm exported,
    scope context = IsContainer container
    /\ resolveName node dn = Some nm
    /\ resolveExported context container node k = Returned exported
    /\ findChild nm (snd (resolveStatic container node k)) (childrenOf context) = None
    /\ child = freshChild context node k nm exported
                 (fst (resolveStatic container node k))
                 (snd (resolveStatic container node k)).
Proof.
  intros P. remember (Some child) as result eqn:Hr.
  destruct P as [ | container nm exported child0 Hs Hn He Hf Hc
                  | container nm i child0 Hs Hn Hf ].
  - discriminate.
  - injection Hr as <-. intros _. exists container, nm, exported. auto.
  - intros Happ. exfalso. apply (f_equal (@length _)) in Happ.
    revert Happ. cbv zeta.
    destruct (snd (mergeDeclarations context child0 node k));
      rewrite ?childrenOf_trigger, childrenOf_withScope, length_insert, length_app;
      simpl; lia.
Qed.

(** C4. A node that carries the ambient modifier resolves to exported,
    whatever the exported flag of the container and whether or not the
    node carries the export modifier; the reflection created for it has
    the exported flag. *)
Theorem ambient_node_is_exported :
  forall (context : Context) (container : ContainerReflection) (node : Node)
         (k : ReflectionKind.t),
    hasModifier (combinedModifierFlags node) ModifierFlags.Ambient = true ->
    resolveExported context container node k = Returned true
    /\ (forall dn child context',
          scope context = IsContainer container ->
          createDeclaration context node k dn = Returned (Some child, context') ->
          childrenOf context' = childrenOf context ++ [child] ->
          isExported (flags child) = true).
Proof.
  intros context container node k Ha.
  assert (He : resolveExported context container node k = Returned true).
  { unfold resolveExported. rewrite Ha.
    rewrite !orb_true_r. reflexivity. }
  split; [exact He|].
  intros dn child context' Hs Hc Happ.
  apply createDeclaration_path in Hc.
  destruct (Path_appended _ _ _ _ _ _ Hc Happ)
    as (container' & nm & exported & Hs' & _ & He' & _ & ->).
  rewrite Hs in Hs'. injection Hs' as <-.
  rewrite He in He'. injection He' as <-.
  apply freshChild_flags.
Qed.

(** An ambient declaration without the export modifier, in a class that
    is not exported, under a converter that excludes what is not
    exported. *)
Lemma ambient_node_is_exported_witness :
  let context :=
    Examples.contextOf (Examples.classContainer None) Examples.strictConverter in
  let node :=
    mkNode 8 (SyntaxKind.Other 149) ModifierFlags.Ambient (Some Examples.classNode)
      (Some (mkSymbol 8 "y")) None false in
  resolveExported context (Examples.classContainer None) node ReflectionKind.Property
  = Returned true.
Proof.
  intros context node.
  apply (ambient_node_is_exported context (Examples.classContainer None) node
           ReflectionKind.Property).
  reflexivity.
Defined.

(** C5. While the context is inheriting, no reflection is produced for a
    node that carries the private modifier: a call that returns returns
    null and leaves the context (children, registry, events) as it was;
    and the call does return null once the scope is a container, the node
    has a name and the export resolution has returned. *)
Theorem private_member_not_inherited :
  forall (context : Context) (node : Node) (k : ReflectionKind.t)
         (dn : option string),
    hasModifier (combinedModifierFlags node) ModifierFlags.Private = true ->
    isInherit context = true ->
    (forall result context',
       createDeclaration context node k dn = Returned (result, context') ->
       result = None /\ context' = context)
    /\ (forall container exported,
          scope context = IsContainer container ->
          resolveExported context container node k = Returned exported ->
          createDeclaration context node k dn = Returned (None, context)).
Proof.
  intros context node k dn Hp Hi.
  assert (G : forall container exported,
            scope context = IsContainer container ->
            resolveExported context container node k = Returned exported ->
            createDeclaration context node k dn = Returned (None, context)).
  { intros container exported Hs He. unfold createDeclaration.
    rewrite Hs. destruct (resolveName node dn); [|reflexivity].
    rewrite He, Hp, Hi.
    destruct (negb exported && _); reflexivity. }
  split; [|exact G].
  intros result context' H.
  destruct (scope context) as [container|] eqn:Hs.
  - destruct (resolveExported context container node k) as [exported|m] eqn:He.
    + rewrite (G container exported eq_refl He) in H.
      injection H as <- <-. auto.
    + unfold createDeclaration in H. rewrite Hs in H.
      destruct (resolveName node dn).
      * rewrite He in H. discriminate.
      * injection H as <- <-. auto.
  - unfold createDeclaration in H. rewrite Hs in H. discriminate.
Qed.

(** The private method of a base class, met while its members are
    inherited. *)
Lemma private_member_not_inherited_witness :
  let context := Examples.inheritContextOf (Examples.classContainer None) [] in
  createDeclaration context Examples.privateStaticMethod ReflectionKind.Method None
  = Returned (None, context).
Proof.
  intros context.
  destruct (private_member_not_inherited context Examples.privateStaticMethod
              ReflectionKind.Method None eq_refl eq_refl) as [_ H].
  apply (H (Examples.classContainer None) false); reflexivity.
Defined.

(** ** Provenance *)

Lemma setFlag_provenance r flag value :
  inheritedFrom (setFlag r flag value) = inheritedFrom r
  /\ overwrites (setFlag r flag value) = overwrites r
  /\ signatures (setFlag r flag value) = signatures r.
Proof. simpl. tauto. Qed.

Lemma setupDeclaration_inheritedFrom_set context r node :
  inheritedFrom r <> None ->
  inheritedFrom (setupDeclaration context r node) = inheritedFrom r
  /\ signatures (setupDeclaration context r node) = signatures r.
Proof.
  intros H. unfold setupDeclaration.
  destruct (isInherit context && _); simpl; [|split; reflexivity].
  destruct (inheritedFrom r) eqn:E; [|contradiction].
  simpl. split; [exact E | reflexivity].
Qed.

Lemma setupDeclaration_overwrites context r node :
  overwrites (setupDeclaration context r node) = overwrites r
  /\ map sigOverwrites (signatures (setupDeclaration context r node))
     = map sigOverwrites (signatures r).
Proof.
  unfold setupDeclaration.
  destruct (isInherit context && _); simpl; [|split; reflexivity].
  destruct (inheritedFrom r); simpl; [split; reflexivity|].
  unfold getAllSignatures. simpl. rewrite map_map. simpl. split; reflexivity.
Qed.

Lemma mergeDeclarations_overwrites_set context r node k :
  overwrites r <> None ->
  overwrites (fst (mergeDeclarations context r node k)) = overwrites r
  /\ signatures (fst (mergeDeclarations context r node k)) = signatures r.
Proof.
  intros H. unfold mergeDeclarations.
  destruct (reconcileKind_same r k) as (_ & Ho & Hs).
  destruct (isOverride _ _ _); simpl; [|split; assumption].
  rewrite Ho. destruct (overwrites r); [split; assumption | contradiction].
Qed.

Lemma mergeDeclarations_writeOnce context r node k :
  writeOnce r (fst (mergeDeclarations context r node k)).
Proof.
  destruct (mergeDeclarations_same context r node k) as (_ & _ & Hi & _ & Hs).
  split.
  - intros _. rewrite <- Hi, <- Hs. tauto.
  - intros H. destruct (mergeDeclarations_overwrites_set context r node k H) as [-> ->].
    tauto.
Qed.

(** Every child of the scope is still there after a call, at the same
    place: as it was, or merged with the node. *)
Lemma Path_child_at context node k dn result context' :
  Path context node k dn result context' ->
  forall j child,
    childrenOf context !! j = Some child ->
    childrenOf context' !! j = Some child
    \/ childrenOf context' !! j = Some (fst (mergeDeclarations context child node k)).
Proof.
  intros [ | container nm exported child0 Hs Hn He Hf Hc
           | container nm i child0 Hs Hn Hf ] j child Hj.
  - left. exact Hj.
  - left. rewrite childrenOf_trigger, childrenOf_registerReflection,
      childrenOf_withScope.
    rewrite lookup_app_l; [exact Hj|]. eapply lookup_lt_Some. exact Hj.
  - apply findChild_Some in Hf. destruct Hf as [Hl _].
    assert (E : childrenOf
                  (let context' :=
                     withScope context
                       (IsContainer
                          (setChildren container
                             (<[i := fst (mergeDeclarations context child0 node k)]>
                                (childrenOf context)))) in
                   match snd (mergeDeclarations context child0 node k) with
                   | Some c => trigger context' c node
                   | None => context'
                   end)
                = <[i := fst (mergeDeclarations context child0 node k)]>
                    (childrenOf context)).
    { cbv zeta. destruct (snd _); reflexivity. }
    rewrite E. destruct (Nat.eq_dec i j) as [<-|Hne].
    + right. rewrite Hl in Hj. injection Hj as <-.
      apply list_lookup_insert_eq. eapply lookup_lt_Some. exact Hl.
    + left. rewrite list_lookup_insert_ne; [exact Hj | exact Hne].
Qed.

Lemma writeOnce_refl r : writeOnce r r.
Proof. split; intros _; tauto. Qed.

(** C6. [inheritedFrom] and [overwrites] are written once.  On a
    reflection whose [inheritedFrom] is set, [setupDeclaration] leaves it
    and the signatures as they are; on a reflection whose [overwrites] is
    set, [mergeDeclarations] leaves it and the signatures as they are; and
    through any invocation of [createDeclaration], every child of the
    scope keeps the [inheritedFrom] and the [overwrites] that were set on
    it, and its signatures keep theirs. *)
Theorem provenance_is_write_once :
  forall (context : Context) (node : Node) (r : DeclarationReflection)
         (k : ReflectionKind.t),
    (inheritedFrom r <> None ->
     inheritedFrom (setupDeclaration context r node) = inheritedFrom r
     /\ signatures (setupDeclaration context r node) = signatures r)
    /\ (overwrites r <> None ->
        overwrites (fst (mergeDeclarations context r node k)) = overwrites r
        /\ signatures (fst (mergeDeclarations context r node k)) = signatures r)
    /\ (forall dn result context' j,
          childrenOf context !! j = Some r ->
          createDeclaration context node k dn = Returned (result, context') ->
          exists r', childrenOf context' !! j = Some r' /\ writeOnce r r').
Proof.
  intros context node r k. split; [|split].
  - apply setupDeclaration_inheritedFrom_set.
  - apply mergeDeclarations_overwrites_set.
  - intros dn result context' j Hj H.
    apply createDeclaration_path in H.
    destruct (Path_child_at _ _ _ _ _ _ H j r Hj) as [E|E];
      eexists; (split; [exact E|]).
    + apply writeOnce_refl.
    + apply mergeDeclarations_writeOnce.
Qed.

(** A method [foo] that already carries both references and a signature,
    met again while the members of the base class are inherited. *)
Lemma provenance_is_write_once_witness :
  let refA := createReferenceType (Some (mkSymbol 20 "foo")) true in
  let refB := createReferenceType (Some (mkSymbol 21 "foo")) true in
  let r := mkDeclaration "foo" ReflectionKind.Method noFlags (Some refA) (Some refB)
             [mkSignature "foo" (Some refA) (Some refB)] in
  let context := Examples.inheritContextOf (Examples.classContainer (Some [r])) ["foo"] in
  overwrites (fst (mergeDeclarations context r Examples.baseFoo ReflectionKind.Method))
  = Some refB
  /\ inheritedFrom (setupDeclaration context r Examples.baseFoo) = Some refA
  /\ exists result context' r',
       createDeclaration context Examples.baseFoo ReflectionKind.Method None
       = Returned (result, context')
       /\ childrenOf context' !! 0%nat = Some r' /\ writeOnce r r'.
Proof.
  intros refA refB r context.
  destruct (provenance_is_write_once context Examples.baseFoo r ReflectionKind.Method)
    as (H1 & H2 & H3).
  split; [apply H2; discriminate|].
  split; [apply H1; discriminate|].
  eexists _, _.
  assert (E : createDeclaration context Examples.baseFoo ReflectionKind.Method None
              = Returned (None, withScope context (IsContainer (Examples.classContainer (Some [r])))))
    by reflexivity.
  destruct (H3 None _ _ 0%nat eq_refl E) as (r' & Hl & Hw).
  exists r'. split; [exact E|]. split; [exact Hl | exact Hw].
Defined.

(** ** Overrides met during an inheritance walk *)

Lemma indexOfFrom_spec {A : Type} (eqb : A -> A -> bool)
    (eqb_eq : forall a b, eqb a b = true <-> a = b) (x : A) (l : list A) :
  forall i, (0 <= i)%Z ->
    (indexOfFrom eqb x l i = -1 <-> ~ In x l)
    /\ (indexOfFrom eqb x l i = -1 \/ i <= indexOfFrom eqb x l i)%Z.
Proof.
  induction l as [|y t IH]; intros i Hi; simpl.
  - split; [tauto | left; reflexivity].
  - destruct (eqb y x) eqn:E.
    + apply eqb_eq in E. split; [|right; lia].
      split; [lia|]. intros H. exfalso. apply H. left. exact E.
    + destruct (IH (i + 1)%Z ltac:(lia)) as [IH1 IH2].
      split.
      * rewrite IH1. split.
        -- intros H [H'|H']; [|contradiction].
           apply eqb_eq in H'. congruence.
        -- intros H H'. apply H. right. exact H'.
      * destruct IH2 as [IH2|IH2]; [left; exact IH2 | right; lia].
Qed.

Lemma indexOf_string_In (l : list string) (x : string) :
  negb (indexOf String.eqb l x =? -1)%Z = true <-> In x l.
Proof.
  unfold indexOf.
  destruct (indexOfFrom_spec String.eqb String.eqb_eq x l 0 ltac:(lia)) as [H _].
  rewrite negb_true_iff, Z.eqb_neq, H.
  split; [|tauto]. intros N.
  destruct (in_dec string_dec x l); [assumption | contradiction].
Qed.

Lemma isOverride_true context r node :
  isOverride context r node = true
  <-> isInherit context = true
      /\ In (name r) (inherited context)
      /\ (sameNode (parent node) (inheritParent context) = true
          \/ isConstructorProperty (flags r) = true).
Proof.
  unfold isOverride.
  rewrite !andb_true_iff, orb_true_iff, indexOf_string_In. tauto.
Qed.

Lemma isOverride_reconcileKind context r node k :
  isOverride context (reconcileKind r k) node = isOverride context r node.
Proof.
  destruct (reconcileKind_same r k) as ((Hn & Hf & _) & _).
  unfold isOverride. rewrite <- Hn, <- Hf. reflexivity.
Qed.

(** C7, as stated, fails: a merge that qualifies does not always record
    [overwrites] pointing at the originating symbol, on the reflection and
    on every signature.  [foo] already overwrites a member of an earlier
    base type and has a signature without [overwrites]; the qualifying
    merge with the member [foo] of the next base type changes neither. *)
Lemma qualifying_merge_keeps_earlier_overwrites :
  let old := createReferenceType (Some (mkSymbol 21 "foo")) true in
  let r := mkDeclaration "foo" ReflectionKind.Method noFlags None (Some old)
             [mkSignature "foo" None None] in
  let context := Examples.inheritContextOf (Examples.classContainer (Some [r])) ["foo"] in
  let node := Examples.baseFoo in
  let r' := fst (mergeDeclarations context r node ReflectionKind.Method) in
  isInherit context = true
  /\ In (name r) (inherited context)
  /\ sameNode (parent node) (inheritParent context) = true
  /\ overwrites r' <> Some (createReferenceType (symbol node) true)
  /\ ~ Forall (fun s => sigOverwrites s = Some (createReferenceType (symbol node) true))
         (signatures r').
Proof.
  intros old r context node r'.
  split; [reflexivity|]. split; [left; reflexivity|]. split; [reflexivity|].
  split; [discriminate|].
  intros H. apply Forall_cons_iff in H. destruct H as [H _]. discriminate.
Qed.

Lemma mergeDeclarations_override context r node k :
  isOverride context r node = true ->
  let ref := createReferenceType (symbol node) true in
  mergeDeclarations context r node k
  = match overwrites r with
    | None => (setOverwrites (reconcileKind r k) ref, None)
    | Some _ => (reconcileKind r k, None)
    end.
Proof.
  intros H ref. unfold mergeDeclarations.
  rewrite isOverride_reconcileKind, H.
  destruct (reconcileKind_same r k) as (_ & -> & _).
  destruct (overwrites r); reflexivity.
Qed.

(** C7, amended.  In a merge where the context is inheriting, the name of
    the existing reflection is among the inherited names, and the parent
    of the node is the inherit parent or the reflection is a constructor
    property: if [overwrites] is not yet set on the reflection, it is set
    on the reflection and on every signature of it, to the reference made
    from the symbol of the node; if it is set already, it and the
    signatures stay as they are; either way the merge returns null, and
    an invocation of [createDeclaration] whose lookup finds that
    reflection returns null and triggers no event. *)
Theorem override_merge_is_rejected :
  forall (context : Context) (r : DeclarationReflection) (node : Node)
         (k : ReflectionKind.t),
    isInherit context = true ->
    In (name r) (inherited context) ->
    (sameNode (parent node) (inheritParent context) = true
     \/ isConstructorProperty (flags r) = true) ->
    let r' := fst (mergeDeclarations context r node k) in
    let ref := createReferenceType (symbol node) true in
    snd (mergeDeclarations context r node k) = None
    /\ (overwrites r = None ->
        overwrites r' = Some ref
        /\ Forall (fun s => sigOverwrites s = Some ref) (signatures r')
        /\ map sigName (signatures r') = map sigName (signatures r))
    /\ (overwrites r <> None ->
        overwrites r' = overwrites r /\ signatures r' = signatures r)
    /\ (forall container dn nm i result context',
          scope context = IsContainer container ->
          resolveName node dn = Some nm ->
          findChild nm (snd (resolveStatic container node k)) (childrenOf context)
            = Some (i, r) ->
          createDeclaration context node k dn = Returned (result, context') ->
          result = None /\ triggered context' = triggered context).
Proof.
  intros context r node k Hi Hn Hp r' ref.
  assert (Ho : isOverride context r node = true)
    by (apply isOverride_true; auto).
  pose proof (mergeDeclarations_override context r node k Ho) as E.
  cbv zeta in E. fold ref in E.
  split; [|split; [|split]].
  - rewrite E. destruct (overwrites r); reflexivity.
  - intros Hnone. subst r'. rewrite E, Hnone. simpl. unfold getAllSignatures.
    destruct (reconcileKind_same r k) as (_ & _ & ->).
    split; [reflexivity|]. split.
    + apply Forall_forall. intros s Hs. apply list_elem_of_In in Hs.
      apply in_map_iff in Hs. destruct Hs as (s0 & <- & _). reflexivity.
    + rewrite map_map. reflexivity.
  - apply mergeDeclarations_overwrites_set.
  - intros container dn nm i result context' Hs Hname Hf H.
    apply createDeclaration_path in H.
    destruct H as [ | container0 nm0 exported child0 Hs0 Hn0 He0 Hf0 Hc0
                    | container0 nm0 i0 child0 Hs0 Hn0 Hf0 ].
    + auto.
    + rewrite Hs in Hs0. injection Hs0 as <-.
      rewrite Hname in Hn0. injection Hn0 as <-.
      rewrite Hf in Hf0. discriminate.
    + rewrite Hs in Hs0. injection Hs0 as <-.
      rewrite Hname in Hn0. injection Hn0 as <-.
      rewrite Hf in Hf0. injection Hf0 as <- <-.
      cbv zeta. rewrite E. destruct (overwrites r); simpl; auto.
Qed.

(** The member [foo] of the base class, met while the derived class
    already declares [foo]. *)
Lemma override_merge_is_rejected_witness :
  let r := mkDeclaration "foo" ReflectionKind.Method noFlags None None
             [mkSignature "foo" None None] in
  let context := Examples.inheritContextOf (Examples.classContainer (Some [r])) ["foo"] in
  let ref := createReferenceType (symbol Examples.baseFoo) true in
  let r' := fst (mergeDeclarations context r Examples.baseFoo ReflectionKind.Method) in
  snd (mergeDeclarations context r Examples.baseFoo ReflectionKind.Method) = None
  /\ overwrites r' = Some ref
  /\ Forall (fun s => sigOverwrites s = Some ref) (signatures r').
Proof.
  intros r context ref r'.
  assert (Hin : In (name r) (inherited context)) by (left; reflexivity).
  destruct (override_merge_is_rejected context r Examples.baseFoo
              ReflectionKind.Method eq_refl Hin (or_introl eq_refl))
    as (H1 & H2 & _).
  split; [exact H1|].
  destruct (H2 eq_refl) as (H3 & H4 & _). split; [exact H3 | exact H4].
Defined.

(** ** Static members and constructor properties *)

Lemma SyntaxKind_eqb_eq a b : SyntaxKind.eqb a b = true <-> a = b.
Proof.
  destruct a, b; simpl; split; intros H; try discriminate; try reflexivity.
  - apply Nat.eqb_eq in H. congruence.
  - injection H as ->. apply Nat.eqb_refl.
Qed.

Lemma nonStaticKinds_indexOf k :
  (indexOf ReflectionKind.eqb nonStaticKinds k =? -1)%Z = true
  <-> ~ In k nonStaticKinds.
Proof.
  unfold indexOf. rewrite Z.eqb_eq.
  apply (indexOfFrom_spec ReflectionKind.eqb ReflectionKind_eqb_eq k nonStaticKinds 0).
  lia.
Qed.

(** The static resolution inside a class, for a kind that may be static. *)
Lemma resolveStatic_in_class container node k :
  containerKind container = ReflectionKind.Class ->
  ~ In k nonStaticKinds ->
  resolveStatic container node k
  = match parentKind node with
    | Some SyntaxKind.Constructor =>
        (true, hasModifier (combinedModifierFlags node) ModifierFlags.Static)
    | Some SyntaxKind.ClassDeclaration =>
        (false, hasModifier (combinedModifierFlags node) ModifierFlags.Static)
    | _ => (false, true)
    end.
Proof.
  intros Hc Hk. apply nonStaticKinds_indexOf in Hk.
  unfold resolveStatic, parentKind. rewrite Hk, Hc. simpl.
  destruct (parent node) as [p|]; simpl; [|reflexivity].
  destruct (nodeKind p); reflexivity.
Qed.

(** The reflection a call returns: the fresh child it has appended, or a
    child that was there, merged; its static flag is the resolved one
    either way. *)
Lemma Path_result context node k dn r context' :
  Path context node k dn (Some r) context' ->
  exists container nm,
    scope context = IsContainer container
    /\ resolveName node dn = Some nm
    /\ childKey r = (nm, snd (resolveStatic container node k))
    /\ ((childrenOf context' = childrenOf context ++ [r]
         /\ isConstructorProperty (flags r) = fst (resolveStatic container node k)
         /\ ~ In (childKey r) (map childKey (childrenOf context)))
        \/ (exists i child,
              childrenOf context !! i = Some child
              /\ sameButKindAndOverwrites child r
              /\ childrenOf context' = <[i := r]> (childrenOf context))).
Proof.
  intros P. remember (Some r) as result eqn:Hr.
  destruct P as [ | container nm exported child0 Hs Hn He Hf Hc
                  | container nm i child0 Hs Hn Hf ].
  - discriminate.
  - injection Hr as <-. exists container, nm.
    assert (Hk : childKey child0 = (nm, snd (resolveStatic container node k)))
      by (subst child0; apply freshChild_childKey).
    split; [exact Hs|]. split; [exact Hn|]. split; [exact Hk|].
    left. split; [reflexivity|]. split.
    + subst child0. apply freshChild_flags.
    + rewrite Hk. apply findChild_None. exact Hf.
  - exists container, nm. split; [exact Hs|]. split; [exact Hn|].
    pose proof (findChild_Some _ _ _ _ _ Hf) as [Hl Hk].
    destruct (mergeDeclarations_result context child0 node k) as [E|E];
      rewrite E in Hr; [discriminate|]. injection Hr as Hr.
    split.
    + rewrite <- Hr, mergeDeclarations_childKey. exact Hk.
    + right. exists i, child0. split; [exact Hl|]. split.
      * rewrite <- Hr. apply mergeDeclarations_same.
      * cbv zeta. rewrite E, childrenOf_trigger, childrenOf_withScope, Hr.
        reflexivity.
Qed.

(** C8, as stated, fails: the reflection that results for a node whose
    parent is a constructor, in a Class container, is not always a
    constructor property.  The class declares a property [x] itself; the
    parameter property [x] of the constructor of its base class, met
    while the base class is inherited, is merged into that child, which
    is returned with the flags it has. *)
Lemma merged_constructor_parameter_keeps_flags :
  let context :=
    invoke (Examples.contextOf (Examples.classContainer None) Examples.plainConverter)
      (Examples.plainInvocation Examples.propertyX ReflectionKind.Property) in
  let inv :=
    Examples.inheritInvocation ["x"] Examples.baseParameterX ReflectionKind.Property in
  ~ In (invKind inv) nonStaticKinds
  /\ (exists container,
        scope context = IsContainer container
        /\ containerKind container = ReflectionKind.Class)
  /\ parentKind (invNode inv) = Some SyntaxKind.Constructor
  /\ exists r context',
       createDeclaration (enter context inv) (invNode inv) (invKind inv) (invName inv)
       = Returned (Some r, context')
       /\ isConstructorProperty (flags r) = false.
Proof.
  intros context inv. split; [|split; [|split]].
  - apply nonStaticKinds_indexOf. reflexivity.
  - eexists. split; vm_compute; reflexivity.
  - reflexivity.
  - eexists _, _. split; [vm_compute; reflexivity|]. reflexivity.
Qed.

(** C8, amended.  For a node converted with a kind other than Class,
    Interface and Module inside a Class container, when
    [createDeclaration] returns a reflection: if the parent of the node
    is a constructor, the resolved constructor-property value is true and
    the resolved static value is the static modifier of the node (the
    rule does not force it), the returned reflection has that static
    flag, and it is a constructor property when it is the child the call
    has created (a merge returns the existing child with the flags it
    has); so for a node without static modifier and no existing child of
    its name the call creates a child with [isConstructorProperty] true
    and [isStatic] false.  If the node has no parent, or a parent that is
    neither a constructor nor a class declaration, the returned
    reflection is static.  The returned reflection is either the child
    the call has appended, with the resolved constructor-property value,
    or an existing child, replaced in place, with the flags that child
    had: when the lookup by the name and static flag of the returned
    reflection finds a child, the returned reflection has the flags of
    that child, its constructor-property flag among them. *)
Theorem static_resolution_in_class :
  forall (context : Context) (container : ContainerReflection) (node : Node)
         (k : ReflectionKind.t) (dn : option string)
         (r : DeclarationReflection) (context' : Context),
    scope context = IsContainer container ->
    containerKind container = ReflectionKind.Class ->
    ~ In k nonStaticKinds ->
    createDeclaration context node k dn = Returned (Some r, context') ->
    (parentKind node = Some SyntaxKind.Constructor ->
     resolveStatic container node k
       = (true, hasModifier (combinedModifierFlags node) ModifierFlags.Static)
     /\ isStatic (flags r)
        = hasModifier (combinedModifierFlags node) ModifierFlags.Static
     /\ (childrenOf context' = childrenOf context ++ [r] ->
         isConstructorProperty (flags r) = true)
     /\ (hasModifier (combinedModifierFlags node) ModifierFlags.Static = false ->
         (forall c, In c (childrenOf context) -> name c <> name r) ->
         childrenOf context' = childrenOf context ++ [r]
         /\ isConstructorProperty (flags r) = true
         /\ isStatic (flags r) = false))
    /\ (parentKind node <> Some SyntaxKind.Constructor ->
        parentKind node <> Some SyntaxKind.ClassDeclaration ->
        resolveStatic container node k = (false, true)
        /\ isStatic (flags r) = true)
    /\ ((childrenOf context' = childrenOf context ++ [r]
         /\ isConstructorProperty (flags r)
            = fst (resolveStatic container node k))
        \/ (exists i child,
              childrenOf context !! i = Some child
              /\ name child = name r
              /\ flags r = flags child
              /\ childrenOf context' = <[i := r]> (childrenOf context)))
    /\ (forall i child,
          findChild (name r) (isStatic (flags r)) (childrenOf context)
            = Some (i, child) ->
          flags r = flags child
          /\ isConstructorProperty (flags r) = isConstructorProperty (flags child)
          /\ childrenOf context' = <[i := r]> (childrenOf context)).
Proof.
  intros context container node k dn r context' Hs Hc Hk H.
  apply createDeclaration_path in H.
  destruct (Path_result _ _ _ _ _ _ H) as (container0 & nm & Hs0 & Hn & Hkey & Hpath).
  rewrite Hs in Hs0. injection Hs0 as <-.
  pose proof (resolveStatic_in_class container node k Hc Hk) as E.
  assert (Hst : isStatic (flags r) = snd (resolveStatic container node k)).
  { unfold childKey in Hkey. congruence. }
  split; [|split; [|split]].
  - intros Hp. rewrite Hp in E. rewrite E in *. simpl in *.
    split; [reflexivity|]. split; [exact Hst|].
    assert (G : childrenOf context' = childrenOf context ++ [r] ->
                isConstructorProperty (flags r) = true).
    { intros Happ. destruct Hpath as [(_ & Hcp & _) | (i & child & _ & _ & Hl)].
      - exact Hcp.
      - exfalso. rewrite Hl in Happ. apply (f_equal (@length _)) in Happ.
        rewrite length_insert, length_app in Happ. simpl in Happ. lia. }
    split; [exact G|].
    intros Hnostatic Hfresh.
    assert (Happ : childrenOf context' = childrenOf context ++ [r]).
    { destruct Hpath as [(Happ & _) | (i & child & Hl & (Hname & _) & _)].
      - exact Happ.
      - exfalso. apply (Hfresh child); [|exact Hname].
        apply list_elem_of_In. eapply list_elem_of_lookup_2. exact Hl. }
    split; [exact Happ|]. split; [exact (G Happ)|].
    rewrite Hst. exact Hnostatic.
  - intros Hnc Hnd.
    assert (E' : resolveStatic container node k = (false, true)).
    { rewrite E. destruct (parentKind node) as [[]|]; try reflexivity;
        contradiction. }
    split; [exact E'|]. rewrite Hst, E'. reflexivity.
  - destruct Hpath as [(Happ & Hcp & _) | (i & child & Hl & (Hname & Hfl & _) & Hins)].
    + left. split; [exact Happ | exact Hcp].
    + right. exists i, child. split; [exact Hl|]. split; [exact Hname|].
      split; [symmetry; exact Hfl | exact Hins].
  - intros i child Hfind.
    assert (Hkr : (name r, isStatic (flags r))
                  = (nm, snd (resolveStatic container node k)))
      by exact Hkey.
    injection Hkr as Hkn Hks. rewrite Hkn, Hks in Hfind.
    clear Hpath E Hst Hkey.
    remember (Some r) as result eqn:Hr.
    destruct H as [ | container1 nm1 exported child1 Hs1 Hn1 He1 Hf1 Hc1
                    | container1 nm1 i1 child1 Hs1 Hn1 Hf1 ].
    + discriminate.
    + exfalso. rewrite Hs in Hs1. injection Hs1 as <-.
      rewrite Hn in Hn1. injection Hn1 as <-.
      rewrite Hfind in Hf1. discriminate.
    + rewrite Hs in Hs1. injection Hs1 as <-.
      rewrite Hn in Hn1. injection Hn1 as <-.
      rewrite Hfind in Hf1. injection Hf1 as <- <-.
      destruct (mergeDeclarations_result context child node k) as [Em|Em];
        rewrite Em in Hr; [discriminate|]. injection Hr as Hr.
      destruct (mergeDeclarations_same context child node k) as (_ & Hfl & _).
      rewrite Hr in Hfl.
      split; [symmetry; exact Hfl|]. split; [rewrite Hfl; reflexivity|].
      cbv zeta. rewrite Em, childrenOf_trigger, childrenOf_withScope, Hr.
      reflexivity.
Qed.

(** The scenario of C8: the parameter property [x] of the constructor,
    in a class that has no child yet; and the same parameter in a class
    that has a property [x] already, where the merge returns that child
    with the flags it has. *)
Lemma static_resolution_in_class_witness :
  (let context :=
     Examples.contextOf (Examples.classContainer None) Examples.plainConverter in
   exists r context',
     createDeclaration context Examples.parameterX ReflectionKind.Property None
     = Returned (Some r, context')
     /\ childrenOf context' = [r]
     /\ isConstructorProperty (flags r) = true
     /\ isStatic (flags r) = false)
  /\ (let context :=
        invoke (Examples.contextOf (Examples.classContainer None) Examples.plainConverter)
          (Examples.plainInvocation Examples.propertyX ReflectionKind.Property) in
      exists child r context',
        childrenOf context = [child]
        /\ createDeclaration context Examples.parameterX ReflectionKind.Property None
           = Returned (Some r, context')
        /\ flags r = flags child
        /\ isConstructorProperty (flags r) = false
        /\ childrenOf context' = [r]).
Proof.
  assert (Hk : ~ In ReflectionKind.Property nonStaticKinds)
    by (apply nonStaticKinds_indexOf; reflexivity).
  split.
  - intros context.
    destruct (createDeclaration context Examples.parameterX ReflectionKind.Property None)
      as [[[r|] context']|] eqn:E; try (vm_compute in E; discriminate).
    exists r, context'. split; [reflexivity|].
    destruct (static_resolution_in_class context (Examples.classContainer None)
                Examples.parameterX ReflectionKind.Property None r context'
                eq_refl eq_refl Hk E) as [H _].
    destruct (H eq_refl) as (_ & _ & _ & G).
    apply G; [reflexivity|]. intros c [].
  - intros context.
    destruct (childrenOf context) as [|child [|]] eqn:Hch;
      try (vm_compute in Hch; discriminate).
    destruct (createDeclaration context Examples.parameterX ReflectionKind.Property None)
      as [[[r|] context']|] eqn:E; try (vm_compute in E; discriminate).
    assert (Hs : scope context = IsContainer (Examples.classContainer (Some [child])))
      by (vm_compute in Hch; injection Hch as <-; reflexivity).
    destruct (static_resolution_in_class context _ Examples.parameterX
                ReflectionKind.Property None r context' Hs eq_refl Hk E)
      as (_ & _ & _ & G).
    assert (Hf : findChild (name r) (isStatic (flags r)) (childrenOf context)
                 = Some (0%nat, child)).
    { rewrite Hch. vm_compute in Hch. injection Hch as <-.
      vm_compute in E. injection E as <- _. reflexivity. }
    destruct (G 0%nat child Hf) as (G1 & G2 & G3).
    exists child, r, context'. split; [reflexivity|]. split; [reflexivity|].
    split; [exact G1|]. split.
    + rewrite G2. vm_compute in Hch. injection Hch as <-. reflexivity.
    + rewrite G3, Hch. reflexivity.
Defined.

(** ** The merge path *)

(** C9. An invocation of [createDeclaration] whose lookup finds an
    existing child leaves every flag of that child as it was (and its
    name, its [inheritedFrom], and the names and [inheritedFrom] of its
    signatures): the child is replaced in place by a reflection that
    differs from it at most in its kind, its [overwrites] and the
    [overwrites] of its signatures; the other children and the registry
    are untouched, and what the call returns is that child or null. *)
Theorem merge_keeps_flags :
  forall (context : Context) (container : ContainerReflection) (node : Node)
         (k : ReflectionKind.t) (dn : option string) (nm : string) (i : nat)
         (child : DeclarationReflection)
         (result : option DeclarationReflection) (context' : Context),
    scope context = IsContainer container ->
    resolveName node dn = Some nm ->
    findChild nm (snd (resolveStatic container node k)) (childrenOf context)
      = Some (i, child) ->
    createDeclaration context node k dn = Returned (result, context') ->
    exists child',
      childrenOf context' = <[i := child']> (childrenOf context)
      /\ childrenOf context' !! i = Some child'
      /\ flags child' = flags child
      /\ sameButKindAndOverwrites child child'
      /\ (result = None \/ result = Some child')
      /\ registered context' = registered context.
Proof.
  intros context container node k dn nm i child result context' Hs Hn Hf H.
  pose proof (findChild_Some _ _ _ _ _ Hf) as [Hl _].
  assert (Hlt : (i < length (childrenOf context))%nat)
    by (eapply lookup_lt_Some; exact Hl).
  apply createDeclaration_path in H.
  destruct H as [ | container0 nm0 exported child0 Hs0 Hn0 He0 Hf0 Hc0
                  | container0 nm0 i0 child0 Hs0 Hn0 Hf0 ].
  - exists child. rewrite list_insert_id by exact Hl.
    split; [reflexivity|]. split; [exact Hl|]. split; [reflexivity|].
    split; [|auto]. repeat split; reflexivity.
  - rewrite Hs in Hs0. injection Hs0 as <-.
    rewrite Hn in Hn0. injection Hn0 as <-.
    rewrite Hf in Hf0. discriminate.
  - rewrite Hs in Hs0. injection Hs0 as <-.
    rewrite Hn in Hn0. injection Hn0 as <-.
    rewrite Hf in Hf0. injection Hf0 as <- <-.
    exists (fst (mergeDeclarations context child node k)).
    pose proof (mergeDeclarations_same context child node k) as Hsame.
    assert (Hfl : flags (fst (mergeDeclarations context child node k)) = flags child).
    { destruct Hsame as (_ & Hfl & _). symmetry. exact Hfl. }
    cbv zeta.
    destruct (mergeDeclarations_result context child node k) as [E|E]; rewrite E;
      rewrite ?childrenOf_trigger, childrenOf_withScope;
      (split; [reflexivity|]);
      (split; [apply list_lookup_insert_eq; exact Hlt|]);
      (split; [exact Hfl|]); (split; [exact Hsame|]); split; auto.
Qed.

(** The constructor parameter [x] merged into the property [x] that the
    class already has. *)
Lemma merge_keeps_flags_witness :
  let context :=
    invoke (Examples.contextOf (Examples.classContainer None) Examples.plainConverter)
      (Examples.plainInvocation Examples.propertyX ReflectionKind.Property) in
  exists child child' result context',
    childrenOf context = [child]
    /\ createDeclaration context Examples.parameterX ReflectionKind.Property None
       = Returned (result, context')
    /\ childrenOf context' = [child']
    /\ flags child' = flags child
    /\ result = Some child'.
Proof.
  intros context.
  destruct (childrenOf context) as [|child [|]] eqn:Hch;
    try (vm_compute in Hch; discriminate).
  destruct (createDeclaration context Examples.parameterX ReflectionKind.Property None)
    as [[[r|] context']|] eqn:E; try (vm_compute in E; discriminate).
  assert (Hf : findChild "x"
                 (snd (resolveStatic (Examples.classContainer (Some [child]))
                         Examples.parameterX ReflectionKind.Property))
                 (childrenOf context) = Some (0%nat, child)).
  { rewrite Hch. vm_compute in Hch. injection Hch as <-. reflexivity. }
  assert (Hs : scope context = IsContainer (Examples.classContainer (Some [child]))).
  { vm_compute in Hch. injection Hch as <-. reflexivity. }
  destruct (merge_keeps_flags context _ Examples.parameterX ReflectionKind.Property
              None "x" 0%nat child (Some r) context' Hs eq_refl Hf E)
    as (child' & H1 & _ & H3 & _ & H5 & _).
  exists child, child', (Some r), context'.
  split; [reflexivity|]. split; [reflexivity|].
  split; [rewrite H1, Hch; reflexivity|]. split; [exact H3|].
  destruct H5 as [H5|H5]; [discriminate | exact H5].
Defined.

(** ** The creation event *)

(** C10. A call of [createDeclaration] that returns a reflection, created
    or merged, has triggered exactly one event, with that reflection and
    the node; a call that returns null has triggered none. *)
Theorem event_iff_reflection :
  forall (context : Context) (node : Node) (k : ReflectionKind.t)
         (dn : option string) (result : option DeclarationReflection)
         (context' : Context),
    createDeclaration context node k dn = Returned (result, context') ->
    triggered context'
    = triggered context
        ++ match result with
           | Some r => [mkEvent r node]
           | None => []
           end.
Proof.
  intros context node k dn result context' H.
  apply createDeclaration_path in H.
  destruct H as [ | container nm exported child Hs Hn He Hf Hc
                  | container nm i child Hs Hn Hf ].
  - rewrite app_nil_r. reflexivity.
  - reflexivity.
  - cbv zeta. destruct (snd (mergeDeclarations context child node k)); simpl.
    + reflexivity.
    + rewrite app_nil_r. reflexivity.
Qed.

(** A merge that changes nothing on the child still triggers the event. *)
Lemma event_iff_reflection_witness :
  let context :=
    invoke (Examples.contextOf (Examples.classContainer None) Examples.plainConverter)
      (Examples.plainInvocation Examples.propertyX ReflectionKind.Property) in
  exists r context',
    createDeclaration context Examples.propertyX ReflectionKind.Property None
    = Returned (Some r, context')
    /\ childrenOf context' = childrenOf context
    /\ triggered context' = triggered context ++ [mkEvent r Examples.propertyX].
Proof.
  intros context.
  destruct (createDeclaration context Examples.propertyX ReflectionKind.Property None)
    as [[[r|] context']|] eqn:E; try (vm_compute in E; discriminate).
  exists r, context'. split; [reflexivity|]. split.
  - vm_compute in E. injection E as <- <-. reflexivity.
  - apply (event_iff_reflection context Examples.propertyX ReflectionKind.Property
             None (Some r) context' E).
Defined.

(** * Further properties of the builder *)

(** ** The lookup, in full *)

Lemma findChildFrom_last nm static l : forall i child,
  (~ In (nm, static) (map childKey l)
   /\ findChildFrom nm static l i child = child)
  \/ (exists p c,
        l !! p = Some c
        /\ childKey c = (nm, static)
        /\ (forall q c', (p < q)%nat -> l !! q = Some c' ->
                         childKey c' <> (nm, static))
        /\ findChildFrom nm static l i child = Some ((i + p)%nat, c)).
Proof.
  induction l as [|n t IH]; intros i child; simpl.
  - left. split; [tauto | reflexivity].
  - destruct (IH (S i)
                (if String.eqb (name n) nm && Bool.eqb (isStatic (flags n)) static
                 then Some (i, n) else child))
      as [[Hno ->] | (p & c & Hp & Hk & Hlast & ->)].
    + destruct (String.eqb (name n) nm && Bool.eqb (isStatic (flags n)) static) eqn:E.
      * right. exists 0%nat, n. apply childKey_matches in E.
        split; [reflexivity|]. split; [exact E|]. split.
        -- intros [|q] c' Hq Hc'; [lia|]. simpl in Hc'.
           intros Hk. apply Hno. rewrite <- Hk. apply in_map.
           apply list_elem_of_In. eapply list_elem_of_lookup_2. exact Hc'.
        -- rewrite Nat.add_0_r. reflexivity.
      * left. apply childKey_matches_false in E. split; [|reflexivity].
        intros [H|H]; [contradiction | contradiction].
    + right. exists (S p), c. split; [exact Hp|]. split; [exact Hk|]. split.
      * intros [|q] c' Hq Hc'; [lia|]. simpl in Hc'.
        apply (Hlast q c'); [lia | exact Hc'].
      * f_equal. f_equal. lia.
Qed.

Lemma findChild_last nm static l i c :
  findChild nm static l = Some (i, c)
  <-> l !! i = Some c
      /\ childKey c = (nm, static)
      /\ (forall j c', (i < j)%nat -> l !! j = Some c' ->
                       childKey c' <> (nm, static)).
Proof.
  unfold findChild.
  destruct (findChildFrom_last nm static l 0%nat None)
    as [[Hno E] | (p & c0 & Hp & Hk & Hlast & E)]; rewrite E; simpl.
  - split; [discriminate|]. intros (Hl & Hk & _). exfalso. apply Hno.
    rewrite <- Hk. apply in_map. apply list_elem_of_In.
    eapply list_elem_of_lookup_2. exact Hl.
  - split.
    + intros H. injection H as <- <-. auto.
    + intros (Hl & Hk' & Hlast').
      destruct (Nat.lt_trichotomy p i) as [L|[->|L]].
      * exfalso. apply (Hlast i c L Hl Hk').
      * rewrite Hp in Hl. injection Hl as ->. reflexivity.
      * exfalso. apply (Hlast' p c0 L Hp Hk).
Qed.

(** X16. The scan keeps the last child of the wanted name and static
    flag: the lookup answers a child at a position exactly when that
    child has the wanted pair and no child after it has. *)
Theorem lookup_returns_last_match :
  forall (nm : string) (static : bool) (l : list DeclarationReflection)
         (i : nat) (c : DeclarationReflection),
    findChild nm static l = Some (i, c)
    <-> l !! i = Some c
        /\ name c = nm
        /\ isStatic (flags c) = static
        /\ (forall j c', (i < j)%nat -> l !! j = Some c' ->
                         ~ (name c' = nm /\ isStatic (flags c') = static)).
Proof.
  intros nm static l i c. rewrite findChild_last. unfold childKey.
  split.
  - intros (Hl & Hk & Hlast). injection Hk as Hn Hs.
    split; [exact Hl|]. split; [exact Hn|]. split; [exact Hs|].
    intros j c' Hj Hc' [Hn' Hs']. apply (Hlast j c' Hj Hc'). congruence.
  - intros (Hl & Hn & Hs & Hlast). split; [exact Hl|].
    split; [congruence|].
    intros j c' Hj Hc' Hk. injection Hk as Hn' Hs'.
    apply (Hlast j c' Hj Hc'). auto.
Qed.

(** Of two children named [a], the later one is found. *)
Lemma lookup_returns_last_match_witness :
  findChild "a" false MoreExamples.twoOfAKind
  = Some (2%nat, mkDeclaration "a" ReflectionKind.Method noFlags None None []).
Proof.
  apply (lookup_returns_last_match "a" false MoreExamples.twoOfAKind 2%nat).
  split; [reflexivity|]. split; [reflexivity|]. split; [reflexivity|].
  intros [|[|[|j]]] c' Hj Hc'; try lia. discriminate.
Defined.

(** ** Merges, composed *)

Lemma reconcileKind_unchanged r k :
  reconcileKind r k = r \/ reconcileKind r k = setKind r k.
Proof.
  unfold reconcileKind. destruct (negb _); [destruct (_ <? _)%Z|]; auto.
Qed.

Lemma reconcileKind_idem r k :
  reconcileKind (reconcileKind r k) k = reconcileKind r k.
Proof.
  destruct (reconcileKind_unchanged r k) as [E|E]; rewrite E.
  - exact E.
  - unfold reconcileKind. simpl.
    assert (Hk : ReflectionKind.eqb k k = true)
      by (apply ReflectionKind_eqb_eq; reflexivity).
    rewrite Hk. reflexivity.
Qed.

Lemma reconcileKind_setOverwrites r ref k :
  reconcileKind (setOverwrites r ref) k = setOverwrites (reconcileKind r k) ref.
Proof.
  unfold reconcileKind. simpl.
  destruct (negb _); [destruct (_ <? _)%Z|]; reflexivity.
Qed.

Lemma isOverride_false_outside_inheritance context r node :
  isInherit context = false -> isOverride context r node = false.
Proof. intros H. unfold isOverride. rewrite H. reflexivity. Qed.

Lemma mergeDeclarations_no_override context r node k :
  isOverride context r node = false ->
  mergeDeclarations context r node k
  = (reconcileKind r k, Some (reconcileKind r k)).
Proof.
  intros H. unfold mergeDeclarations.
  rewrite isOverride_reconcileKind, H. reflexivity.
Qed.

(** X12. A merge is idempotent: merging the same node with the same kind
    into the reflection the merge has left changes nothing more and
    returns the same. *)
Theorem mergeDeclarations_idempotent :
  forall (context : Context) (r : DeclarationReflection) (node : Node)
         (k : ReflectionKind.t),
    mergeDeclarations context (fst (mergeDeclarations context r node k)) node k
    = mergeDeclarations context r node k.
Proof.
  intros context r node k.
  destruct (isOverride context r node) eqn:Ho.
  - rewrite (mergeDeclarations_override context r node k Ho).
    destruct (overwrites r) eqn:Hw; simpl.
    + assert (Ho' : isOverride context (reconcileKind r k) node = true)
        by (rewrite isOverride_reconcileKind; exact Ho).
      rewrite (mergeDeclarations_override context _ node k Ho').
      destruct (reconcileKind_same r k) as (_ & -> & _). rewrite Hw.
      rewrite reconcileKind_idem. reflexivity.
    + set (r1 := setOverwrites (reconcileKind r k)
                   (createReferenceType (symbol node) true)).
      assert (Ho' : isOverride context r1 node = true).
      { rewrite <- Ho, <- (isOverride_reconcileKind context r node k).
        reflexivity. }
      rewrite (mergeDeclarations_override context r1 node k Ho'). simpl.
      f_equal. subst r1. rewrite reconcileKind_setOverwrites, reconcileKind_idem.
      reflexivity.
  - rewrite (mergeDeclarations_no_override context r node k Ho). simpl.
    assert (Ho' : isOverride context (reconcileKind r k) node = false)
      by (rewrite isOverride_reconcileKind; exact Ho).
    rewrite (mergeDeclarations_no_override context _ node k Ho').
    rewrite reconcileKind_idem. reflexivity.
Qed.

Lemma mergeDeclarations_kind_of context r node k :
  kind (fst (mergeDeclarations context r node k))
  = if (weightOf (kind r) <? weightOf k)%Z then k else kind r.
Proof. rewrite mergeDeclarations_kind. apply reconcileKind_kind. Qed.

Lemma kind_choice_commutes (k0 k1 k2 : ReflectionKind.t) :
  (let a := if (weightOf k0 <? weightOf k1)%Z then k1 else k0 in
   if (weightOf a <? weightOf k2)%Z then k2 else a)
  = (let b := if (weightOf k0 <? weightOf k2)%Z then k2 else k0 in
     if (weightOf b <? weightOf k1)%Z then k1 else b).
Proof.
  cbv zeta.
  assert (B : (-1 <= weightOf k0)%Z)
    by (rewrite weightOf_table; destruct k0; lia).
  destruct (Z.ltb_spec (weightOf k0) (weightOf k1));
    destruct (Z.ltb_spec (weightOf k0) (weightOf k2));
    repeat match goal with
           | |- context [(?a <? ?b)%Z] => destruct (Z.ltb_spec a b)
           end; try reflexivity; try lia.
  all: assert (E : weightOf k1 = weightOf k2) by lia.
  all: rewrite (weightOf_table k1), (weightOf_table k2) in *.
  all: destruct k1; destruct k2; try reflexivity; lia.
Qed.

(** X14. The kind that results from two merges does not depend on their
    order: merging a node of kind [k1] and then a node of kind [k2] leaves
    the reflection with the same kind as merging them the other way
    round. *)
Theorem kind_reconciliation_order_independent :
  forall (context1 context2 context3 context4 : Context)
         (r : DeclarationReflection) (node1 node2 : Node)
         (k1 k2 : ReflectionKind.t),
    kind (fst (mergeDeclarations context2
                 (fst (mergeDeclarations context1 r node1 k1)) node2 k2))
    = kind (fst (mergeDeclarations context4
                   (fst (mergeDeclarations context3 r node2 k2)) node1 k1)).
Proof.
  intros. rewrite !mergeDeclarations_kind_of.
  apply (kind_choice_commutes (kind r) k1 k2).
Qed.

(** X15. A merge is rejected (returns null) exactly when the context is
    inheriting, the name of the reflection is among the inherited names,
    and the parent of the node is the inherit parent or the reflection is
    a constructor property; a merge that is not rejected returns the
    reflection, on which it has changed nothing but, possibly, the
    kind. *)
Theorem merge_rejected_iff_override :
  forall (context : Context) (r : DeclarationReflection) (node : Node)
         (k : ReflectionKind.t),
    (snd (mergeDeclarations context r node k) = None
     <-> isInherit context = true
         /\ In (name r) (inherited context)
         /\ (sameNode (parent node) (inheritParent context) = true
             \/ isConstructorProperty (flags r) = true))
    /\ (snd (mergeDeclarations context r node k) <> None ->
        snd (mergeDeclarations context r node k)
          = Some (fst (mergeDeclarations context r node k))
        /\ (fst (mergeDeclarations context r node k) = r
            \/ fst (mergeDeclarations context r node k) = setKind r k)).
Proof.
  intros context r node k. rewrite <- isOverride_true.
  destruct (isOverride context r node) eqn:Ho.
  - rewrite (mergeDeclarations_override context r node k Ho).
    split.
    + destruct (overwrites r); simpl; tauto.
    + destruct (overwrites r); simpl; intros H; contradiction.
  - rewrite (mergeDeclarations_no_override context r node k Ho). simpl.
    split.
    + split; discriminate.
    + intros _. split; [reflexivity|].
      destruct (reconcileKind_unchanged r k) as [E|E]; rewrite E; auto.
Qed.

(** The namespace [f] merged into the function [f], outside of any
    inheritance walk: the merge is not rejected and the reflection becomes
    a module. *)
Lemma merge_rejected_iff_override_witness :
  let context :=
    Examples.contextOf (MoreExamples.moduleContainer false) Examples.plainConverter in
  let r := newDeclarationReflection "f" ReflectionKind.Function in
  snd (mergeDeclarations context r MoreExamples.namespaceF ReflectionKind.Module)
  = Some (setKind r ReflectionKind.Module).
Proof.
  intros context r.
  destruct (merge_rejected_iff_override context r MoreExamples.namespaceF
              ReflectionKind.Module) as [_ H].
  destruct H as [H _]; [discriminate|]. exact H.
Defined.

(** ** Sequences of invocations, in full *)

Lemma invoke_child_at context inv j r :
  childrenOf context !! j = Some r ->
  childrenOf (invoke context inv) !! j = Some r
  \/ childrenOf (invoke context inv) !! j
     = Some (fst (mergeDeclarations (enter context inv) r (invNode inv) (invKind inv))).
Proof.
  intros Hj. destruct (invoke_cases context inv) as [(m & _ & ->) | (result & H)].
  - left. exact Hj.
  - apply createDeclaration_path in H.
    apply (Path_child_at _ _ _ _ _ _ H j r Hj).
Qed.

Lemma weightOf_bounds k : (-1 <= weightOf k <= 2)%Z.
Proof. rewrite weightOf_table. destruct k; lia. Qed.

Lemma mergeDeclarations_weight context r node k :
  (weightOf (kind r) <= weightOf (kind (fst (mergeDeclarations context r node k))))%Z.
Proof.
  rewrite mergeDeclarations_kind_of.
  destruct (Z.ltb_spec (weightOf (kind r)) (weightOf k)); lia.
Qed.

(** X13. Through any sequence of invocations, a child of the scope stays
    at its position with its name, its flags and its [inheritedFrom], and
    the weight of its kind in [Module; Enum; Class] never decreases: a
    reflection that is a Class stays a Class, and one whose kind is in
    the list keeps a kind of the list. *)
Theorem child_kind_never_downgrades :
  forall (invs : list Invocation) (context : Context) (j : nat)
         (r : DeclarationReflection),
    childrenOf context !! j = Some r ->
    exists r',
      childrenOf (invokeAll context invs) !! j = Some r'
      /\ name r' = name r
      /\ flags r' = flags r
      /\ inheritedFrom r' = inheritedFrom r
      /\ (weightOf (kind r) <= weightOf (kind r'))%Z
      /\ (kind r = ReflectionKind.Class -> kind r' = ReflectionKind.Class)
      /\ (In (kind r) weights -> In (kind r') weights).
Proof.
  assert (G : forall invs context j r,
            childrenOf context !! j = Some r ->
            exists r',
              childrenOf (invokeAll context invs) !! j = Some r'
              /\ name r' = name r /\ flags r' = flags r
              /\ inheritedFrom r' = inheritedFrom r
              /\ (weightOf (kind r) <= weightOf (kind r'))%Z).
  { induction invs as [|inv invs IH]; intros context j r Hj; simpl.
    - exists r. split; [exact Hj|]. repeat split; reflexivity.
    - destruct (invoke_child_at context inv j r Hj) as [H|H].
      + apply (IH _ _ _ H).
      + destruct (IH _ _ _ H) as (r' & Hl & Hn & Hf & Hi & Hw).
        destruct (mergeDeclarations_same (enter context inv) r (invNode inv) (invKind inv))
          as (Hn1 & Hf1 & Hi1 & _).
        pose proof (mergeDeclarations_weight (enter context inv) r (invNode inv) (invKind inv)).
        exists r'. split; [exact Hl|].
        split; [congruence|]. split; [congruence|]. split; [congruence|]. lia. }
  intros invs context j r Hj.
  destruct (G invs context j r Hj) as (r' & Hl & Hn & Hf & Hi & Hw).
  exists r'. split; [exact Hl|]. split; [exact Hn|]. split; [exact Hf|].
  split; [exact Hi|]. split; [exact Hw|].
  pose proof (weightOf_bounds (kind r')) as B. split.
  - intros Hc. rewrite Hc in Hw. rewrite !weightOf_table in *.
    destruct (kind r'); try reflexivity; lia.
  - intros Hin.
    assert (Hr : weightOf (kind r) <> -1).
    { intros Hu. apply weightOf_unranked in Hu. contradiction. }
    pose proof (weightOf_bounds (kind r)) as Br.
    rewrite (weightOf_table (kind r')) in Hw, B. unfold weights.
    destruct (kind r'); simpl; auto; lia.
Qed.

(** The function [f], then the namespace [f] merged into it, then the
    function again: the child becomes a module and stays one. *)
Lemma child_kind_never_downgrades_witness :
  let context :=
    invoke (Examples.contextOf (MoreExamples.moduleContainer false) Examples.plainConverter)
      (Examples.plainInvocation MoreExamples.exportedFunction ReflectionKind.Function) in
  let invs :=
    [ Examples.plainInvocation MoreExamples.namespaceF ReflectionKind.Module;
      Examples.plainInvocation MoreExamples.exportedFunction ReflectionKind.Function ] in
  exists r r',
    childrenOf context !! 0%nat = Some r
    /\ childrenOf (invokeAll context invs) !! 0%nat = Some r'
    /\ kind r = ReflectionKind.Function
    /\ kind r' = ReflectionKind.Module
    /\ (weightOf (kind r) <= weightOf (kind r'))%Z.
Proof.
  intros context invs.
  destruct (childrenOf context !! 0%nat) as [r|] eqn:H0;
    [|vm_compute in H0; discriminate].
  destruct (child_kind_never_downgrades invs context 0%nat r H0)
    as (r' & Hl & _ & _ & _ & Hw & _).
  exists r, r'. split; [reflexivity|]. split; [exact Hl|].
  split; [vm_compute in H0; injection H0 as <-; reflexivity|].
  split; [|exact Hw].
  vm_compute in Hl. injection Hl as <-. reflexivity.
Defined.

Lemma registryKeys_created context container l r node :
  registryKeys
    (trigger
       (registerReflection (withScope context (IsContainer (setChildren container l)))
          r node)
       r node)
  = registryKeys context ++ [childKey r].
Proof. unfold registryKeys. simpl. rewrite map_app. reflexivity. Qed.

(** What one returning call adds: at most one child, entered in the
    registry, and at least as many events. *)
Lemma Path_growth context node k dn result context' :
  Path context node k dn result context' ->
  exists added evs,
    map childKey (childrenOf context')
      = map childKey (childrenOf context) ++ added
    /\ registryKeys context' = registryKeys context ++ added
    /\ triggered context' = triggered context ++ evs
    /\ (length added <= length evs)%nat.
Proof.
  intros [ | container nm exported child Hs Hn He Hf Hc
           | container nm i child Hs Hn Hf ].
  - exists [], []. rewrite !app_nil_r. auto.
  - exists [childKey child], [mkEvent child node].
    rewrite registryKeys_created, childrenOf_trigger,
      childrenOf_registerReflection, childrenOf_withScope, map_app.
    simpl. auto.
  - apply findChild_Some in Hf. destruct Hf as [Hl _].
    pose proof (mergeDeclarations_childKey context child node k) as Hk.
    cbv zeta.
    destruct (snd (mergeDeclarations context child node k)) as [c|].
    + exists [], [mkEvent c node].
      rewrite childrenOf_trigger, childrenOf_withScope,
        (map_insert_same childKey _ i child _ Hl Hk), !app_nil_r.
      simpl. auto.
    + exists [], [].
      rewrite childrenOf_withScope,
        (map_insert_same childKey _ i child _ Hl Hk), !app_nil_r.
      simpl. auto.
Qed.

Lemma invoke_growth context inv :
  exists added evs,
    map childKey (childrenOf (invoke context inv))
      = map childKey (childrenOf context) ++ added
    /\ registryKeys (invoke context inv) = registryKeys context ++ added
    /\ triggered (invoke context inv) = triggered context ++ evs
    /\ (length added <= length evs)%nat.
Proof.
  destruct (invoke_cases context inv) as [(m & _ & ->) | (result & H)].
  - exists [], []. rewrite !app_nil_r. auto.
  - apply createDeclaration_path in H. apply (Path_growth _ _ _ _ _ _ H).
Qed.

(** X10. Invocations only ever add: after any sequence of invocations the
    [(name, isStatic)] pairs of the children are those before, in the
    same order, followed by those of the children created since; the
    registry has grown by exactly these; and the events triggered since
    are at least as many. *)
Theorem children_registry_events_only_grow :
  forall (invs : list Invocation) (context : Context),
    exists (added : list (string * bool)) (evs : list CreateDeclarationEvent),
      map childKey (childrenOf (invokeAll context invs))
        = map childKey (childrenOf context) ++ added
      /\ registryKeys (invokeAll context invs) = registryKeys context ++ added
      /\ triggered (invokeAll context invs) = triggered context ++ evs
      /\ (length added <= length evs)%nat.
Proof.
  induction invs as [|inv invs IH]; intros context; simpl.
  - exists [], []. rewrite !app_nil_r. auto.
  - destruct (IH (invoke context inv)) as (a2 & e2 & Hc2 & Hr2 & He2 & Hl2).
    destruct (invoke_growth context inv) as (a1 & e1 & Hc1 & Hr1 & He1 & Hl1).
    exists (a1 ++ a2), (e1 ++ e2).
    rewrite Hc2, Hr2, He2, Hc1, Hr1, He1, <- !app_assoc, !length_app.
    repeat split; try reflexivity. lia.
Qed.

(** X9. The registry mirrors the children: when the reflections of the
    registry are, pair by pair, the children of the scope (as they are
    for a scope without children and an empty registry), they still are
    after any sequence of invocations; every created child is registered
    once, and a merge registers nothing. *)
Theorem registry_mirrors_children :
  forall (invs : list Invocation) (context : Context),
    registryKeys context = map childKey (childrenOf context) ->
    registryKeys (invokeAll context invs)
    = map childKey (childrenOf (invokeAll context invs)).
Proof.
  induction invs as [|inv invs IH]; intros context H; simpl.
  - exact H.
  - apply IH.
    destruct (invoke_growth context inv) as (added & evs & Hc & Hr & _).
    rewrite Hc, Hr, H. reflexivity.
Qed.

(** A property, the parameter of the same name (a merge) and a method:
    two children, two entries in the registry. *)
Lemma registry_mirrors_children_witness :
  let context :=
    Examples.contextOf (Examples.classContainer None) Examples.plainConverter in
  let invs :=
    [ Examples.plainInvocation Examples.propertyX ReflectionKind.Property;
      Examples.plainInvocation Examples.parameterX ReflectionKind.Property;
      Examples.plainInvocation MoreExamples.methodM ReflectionKind.Method ] in
  registryKeys (invokeAll context invs) = [("x", false); ("m", false)]
  /\ map childKey (childrenOf (invokeAll context invs)) = [("x", false); ("m", false)].
Proof.
  intros context invs.
  assert (H : registryKeys (invokeAll context invs)
              = map childKey (childrenOf (invokeAll context invs)))
    by (apply (registry_mirrors_children invs context); reflexivity).
  split; [rewrite H|]; vm_compute; reflexivity.
Defined.

(** ** Converting a node twice *)

Lemma reconcileKind_same_kind r k : kind r = k -> reconcileKind r k = r.
Proof.
  intros <-. unfold reconcileKind.
  assert (E : ReflectionKind.eqb (kind r) (kind r) = true)
    by (apply ReflectionKind_eqb_eq; reflexivity).
  rewrite E. reflexivity.
Qed.

Lemma freshChild_kind context node k nm exported cp st :
  kind (freshChild context node k nm exported cp st) = k.
Proof. unfold freshChild. rewrite setupDeclaration_kind. reflexivity. Qed.

Lemma findChild_insert nm static l i c c' :
  findChild nm static l = Some (i, c) ->
  childKey c' = childKey c ->
  findChild nm static (<[i := c']> l) = Some (i, c').
Proof.
  intros H Hk. apply findChild_last in H. destruct H as (Hl & Hkey & Hlast).
  apply findChild_last. split; [|split].
  - apply list_lookup_insert_eq. eapply lookup_lt_Some. exact Hl.
  - congruence.
  - intros j c2 Hj Hc2. rewrite list_lookup_insert_ne in Hc2 by lia.
    apply (Hlast j c2 Hj Hc2).
Qed.

Lemma findChild_appended nm static l c :
  childKey c = (nm, static) ->
  findChild nm static (l ++ [c]) = Some (length l, c).
Proof.
  intros Hk. apply findChild_last. split; [|split].
  - apply list_lookup_middle. reflexivity.
  - exact Hk.
  - intros j c2 Hj Hc2. apply lookup_lt_Some in Hc2.
    rewrite length_app in Hc2. simpl in Hc2. lia.
Qed.

(** The merge path, from what the steps before it have computed. *)
Lemma createDeclaration_merge_path context container node k dn nm exported i child :
  scope context = IsContainer container ->
  resolveName node dn = Some nm ->
  resolveExported context container node k = Returned exported ->
  negb exported && excludeNotExported (converter context) = false ->
  isInherit context
  && hasModifier (combinedModifierFlags node) ModifierFlags.Private = false ->
  findChild nm (snd (resolveStatic container node k)) (childrenOf context)
    = Some (i, child) ->
  createDeclaration context node k dn
  = Returned
      (snd (mergeDeclarations context child node k),
       match snd (mergeDeclarations context child node k) with
       | Some c =>
           trigger
             (withScope context
                (IsContainer
                   (setChildren container
                      (<[i := fst (mergeDeclarations context child node k)]>
                         (childrenOf context)))))
             c node
       | None =>
           withScope context
             (IsContainer
                (setChildren container
                   (<[i := fst (mergeDeclarations context child node k)]>
                      (childrenOf context))))
       end).
Proof.
  intros Hs Hn He Hx Hp Hf. unfold createDeclaration.
  assert (Hch : default [] (children container) = childrenOf context)
    by (unfold childrenOf; rewrite Hs; reflexivity).
  rewrite Hs, Hn, He, Hx, Hp, Hch.
  destruct (resolveStatic container node k) as [cp st]. simpl in Hf.
  rewrite Hf.
  destruct (mergeDeclarations context child node k) as [child' [c|]];
    reflexivity.
Qed.

(** X11. Outside of an inheritance walk, converting the same node a
    second time is idempotent: the second call returns what the first has
    returned and leaves the children and the registry as the first has
    left them; it only triggers the event again when a reflection is
    returned. *)
Theorem reinvocation_is_idempotent :
  forall (context : Context) (node : Node) (k : ReflectionKind.t)
         (dn : option string) (result : option DeclarationReflection)
         (context1 : Context),
    isInherit context = false ->
    createDeclaration context node k dn = Returned (result, context1) ->
    createDeclaration context1 node k dn
    = Returned (result,
                match result with
                | Some r => trigger context1 r node
                | None => context1
                end).
Proof.
  intros context node k dn result context1 Hi H. pose proof H as H0.
  unfold createDeclaration in H.
  destruct (scope context) as [container|] eqn:Hs; [|discriminate].
  destruct (resolveName node dn) as [nm|] eqn:Hn.
  2:{ injection H as <- <-. exact H0. }
  destruct (resolveExported context container node k) as [exported|] eqn:He;
    [|discriminate].
  destruct (negb exported && excludeNotExported (converter context)) eqn:Hx.
  { injection H as <- <-. exact H0. }
  destruct (isInherit context
            && hasModifier (combinedModifierFlags node) ModifierFlags.Private) eqn:Hp.
  { injection H as <- <-. exact H0. }
  assert (Hch : default [] (children container) = childrenOf context)
    by (unfold childrenOf; rewrite Hs; reflexivity).
  rewrite Hch in H. clear H0.
  destruct (resolveStatic container node k) as [cp st] eqn:Hst.
  destruct (findChild nm st (childrenOf context)) as [[i child]|] eqn:Hf.
  - assert (Ho : isOverride context child node = false)
      by (apply isOverride_false_outside_inheritance; exact Hi).
    rewrite (mergeDeclarations_no_override context child node k Ho) in H.
    injection H as <- <-.
    set (rk := reconcileKind child k).
    set (l1 := <[i := rk]> (childrenOf context)).
    set (context1 := trigger
                       (withScope context (IsContainer (setChildren container l1)))
                       rk node).
    assert (Hk : childKey rk = childKey child).
    { destruct (reconcileKind_same child k) as ((Hn1 & Hf1 & _) & _).
      unfold childKey. subst rk. rewrite <- Hn1, <- Hf1. reflexivity. }
    assert (Hf1 : findChild nm (snd (resolveStatic (setChildren container l1) node k))
                    (childrenOf context1) = Some (i, rk)).
    { change (snd (resolveStatic (setChildren container l1) node k))
        with (snd (resolveStatic container node k)).
      rewrite Hst. simpl snd.
      exact (findChild_insert nm st (childrenOf context) i child rk Hf Hk). }
    rewrite (createDeclaration_merge_path context1 (setChildren container l1)
               node k dn nm exported i rk eq_refl Hn He Hx Hp Hf1).
    assert (Ho1 : isOverride context1 rk node = false)
      by (apply isOverride_false_outside_inheritance; exact Hi).
    rewrite (mergeDeclarations_no_override context1 rk node k Ho1). simpl.
    subst rk. rewrite reconcileKind_idem.
    change (childrenOf context1) with l1. subst l1.
    rewrite list_insert_insert_eq. reflexivity.
  - injection H as <- <-.
    set (child := setupDeclaration context _ node).
    assert (Hc : child = freshChild context node k nm exported cp st)
      by reflexivity.
    set (l1 := childrenOf context ++ [child]).
    set (context1 := trigger
                       (registerReflection
                          (withScope context (IsContainer (setChildren container l1)))
                          child node)
                       child node).
    assert (Hf1 : findChild nm (snd (resolveStatic (setChildren container l1) node k))
                    (childrenOf context1)
                  = Some (length (childrenOf context), child)).
    { change (snd (resolveStatic (setChildren container l1) node k))
        with (snd (resolveStatic container node k)).
      rewrite Hst. simpl snd. apply findChild_appended. rewrite Hc.
      apply freshChild_childKey. }
    rewrite (createDeclaration_merge_path context1 (setChildren container l1)
               node k dn nm exported _ child eq_refl Hn He Hx Hp Hf1).
    assert (Ho1 : isOverride context1 child node = false)
      by (apply isOverride_false_outside_inheritance; exact Hi).
    rewrite (mergeDeclarations_no_override context1 child node k Ho1). simpl.
    assert (Hkind : kind child = k) by (rewrite Hc; apply freshChild_kind).
    rewrite (reconcileKind_same_kind child k Hkind).
    change (childrenOf context1) with l1.
    rewrite list_insert_id; [reflexivity|].
    subst l1. apply list_lookup_middle. reflexivity.
Qed.

(** The property [x] of a class, converted twice. *)
Lemma reinvocation_is_idempotent_witness :
  let context :=
    Examples.contextOf (Examples.classContainer None) Examples.plainConverter in
  exists r context1,
    createDeclaration context Examples.propertyX ReflectionKind.Property None
    = Returned (Some r, context1)
    /\ createDeclaration context1 Examples.propertyX ReflectionKind.Property None
       = Returned (Some r, trigger context1 r Examples.propertyX)
    /\ childrenOf (trigger context1 r Examples.propertyX) = [r].
Proof.
  intros context.
  destruct (createDeclaration context Examples.propertyX ReflectionKind.Property None)
    as [[[r|] context1]|] eqn:E; try (vm_compute in E; discriminate).
  exists r, context1. split; [reflexivity|]. split.
  - apply (reinvocation_is_idempotent context Examples.propertyX
             ReflectionKind.Property None (Some r) context1 eq_refl E).
  - vm_compute in E. injection E as <- <-. reflexivity.
Defined.

(** ** The name of the reflection *)

Lemma resolveName_explicit node nm :
  nm <> "" -> resolveName node (Some nm) = Some nm.
Proof.
  intros H. unfold resolveName.
  destruct (String.eqb nm "") eqn:E; [|reflexivity].
  apply String.eqb_eq in E. contradiction.
Qed.

Lemma resolveName_symbols node dn :
  noExplicitName dn ->
  resolveName node dn
  = match localSymbol node with
    | Some s => Some (symbolName s)
    | None => option_map symbolName (symbol node)
    end.
Proof. intros [-> | ->]; reflexivity. Qed.

Lemma Path_name context node k dn r context' :
  Path context node k dn (Some r) context' ->
  resolveName node dn = Some (name r).
Proof.
  intros P. destruct (Path_result _ _ _ _ _ _ P) as (c & nm & _ & Hn & Hk & _).
  unfold childKey in Hk. injection Hk as -> _. exact Hn.
Qed.

(** X1. The reflection a call returns, created or merged, bears the
    explicit name when one is passed and is not empty; otherwise the name
    of the local symbol of the node when it has one; otherwise the name
    of its symbol.  An empty explicit name counts as none, and a node
    without explicit name and without symbols is skipped: null is
    returned and the context is left as it was. *)
Theorem reflection_name_resolution :
  forall (context : Context) (node : Node) (k : ReflectionKind.t)
         (dn : option string),
    (forall r context',
       createDeclaration context node k dn = Returned (Some r, context') ->
       (forall nm, dn = Some nm -> nm <> "" -> name r = nm)
       /\ (noExplicitName dn ->
           forall s, localSymbol node = Some s -> name r = symbolName s)
       /\ (noExplicitName dn -> localSymbol node = None ->
           exists s, symbol node = Some s /\ name r = symbolName s))
    /\ (noExplicitName dn -> localSymbol node = None -> symbol node = None ->
        forall container,
          scope context = IsContainer container ->
          createDeclaration context node k dn = Returned (None, context))
    /\ createDeclaration context node k (Some "")
       = createDeclaration context node k None.
Proof.
  intros context node k dn. split; [|split].
  - intros r context' H. apply createDeclaration_path in H.
    apply Path_name in H. split; [|split].
    + intros nm -> Hne. rewrite (resolveName_explicit node nm Hne) in H.
      congruence.
    + intros Hd s Hs. rewrite (resolveName_symbols node dn Hd), Hs in H.
      congruence.
    + intros Hd Hl. rewrite (resolveName_symbols node dn Hd), Hl in H.
      destruct (symbol node) as [s|]; [|discriminate].
      exists s. split; [reflexivity|]. simpl in H. congruence.
  - intros Hd Hl Hsym container Hs. unfold createDeclaration.
    rewrite Hs, (resolveName_symbols node dn Hd), Hl, Hsym. reflexivity.
  - reflexivity.
Qed.

(** A default export: the local symbol [Widget] names the reflection, not
    the symbol [default]; a node without symbols is skipped. *)
Lemma reflection_name_resolution_witness :
  let context :=
    Examples.contextOf (MoreExamples.moduleContainer false) Examples.plainConverter in
  (exists r context',
     createDeclaration context MoreExamples.defaultExport ReflectionKind.Class (Some "")
     = Returned (Some r, context')
     /\ name r = "Widget")
  /\ createDeclaration context MoreExamples.anonymousNode ReflectionKind.Class None
     = Returned (None, context).
Proof.
  intros context.
  destruct (reflection_name_resolution context MoreExamples.defaultExport
              ReflectionKind.Class (Some "")) as (H1 & _ & _).
  destruct (reflection_name_resolution context MoreExamples.anonymousNode
              ReflectionKind.Class None) as (_ & H2 & _).
  split.
  - destruct (createDeclaration context MoreExamples.defaultExport
                ReflectionKind.Class (Some ""))
      as [[[r|] context']|] eqn:E; try (vm_compute in E; discriminate).
    exists r, context'. split; [reflexivity|].
    destruct (H1 r context' eq_refl) as (_ & H & _).
    apply (H (or_intror eq_refl) (mkSymbol 36 "Widget") eq_refl).
  - apply (H2 (or_introl eq_refl) eq_refl eq_refl
              (MoreExamples.moduleContainer false) eq_refl).
Defined.

(** ** Export resolution *)

Lemma kindOf_In c kinds : kindOf c kinds = true <-> In (containerKind c) kinds.
Proof.
  unfold kindOf. rewrite existsb_exists. split.
  - intros (x & Hx & E). apply ReflectionKind_eqb_eq in E. subst x. exact Hx.
  - intros H. exists (containerKind c). split; [exact H|].
    apply ReflectionKind_eqb_eq. reflexivity.
Qed.

Lemma kindOf_not_In c kinds : kindOf c kinds = false <-> ~ In (containerKind c) kinds.
Proof.
  rewrite <- kindOf_In. destruct (kindOf c kinds); split; intros H;
    try reflexivity; try discriminate; try (intros H'; discriminate).
  exfalso. apply H. reflexivity.
Qed.

Lemma considerInheritedExportKinds_indexOf k :
  (indexOf ReflectionKind.eqb considerInheritedExportKinds k =? -1)%Z = true
  <-> ~ In k considerInheritedExportKinds.
Proof.
  unfold indexOf. rewrite Z.eqb_eq.
  apply (indexOfFrom_spec ReflectionKind.eqb ReflectionKind_eqb_eq k
           considerInheritedExportKinds 0).
  lia.
Qed.

Lemma considerInheritedExportKinds_indexOf_In k :
  In k considerInheritedExportKinds ->
  (indexOf ReflectionKind.eqb considerInheritedExportKinds k =? -1)%Z = false.
Proof.
  intros H. apply not_true_iff_false. intros E.
  apply considerInheritedExportKinds_indexOf in E. contradiction.
Qed.

(** When the exported state of the container is not looked at. *)
Lemma inheritedExport_ignored container node k :
  In (containerKind container) [ReflectionKind.Module; ReflectionKind.ExternalModule]
  \/ ((~ In k considerInheritedExportKinds
       \/ nodeKind node = SyntaxKind.VariableDeclaration
       \/ nodeKind node = SyntaxKind.FunctionDeclaration)
      /\ ~ In (containerKind container)
             [ReflectionKind.ObjectLiteral; ReflectionKind.TypeLiteral]) ->
  inheritedExport container node k = false.
Proof.
  unfold inheritedExport. intros [H | [H1 H2]].
  - apply kindOf_In in H. rewrite H. reflexivity.
  - apply kindOf_not_In in H2. rewrite H2.
    assert (E : (indexOf ReflectionKind.eqb considerInheritedExportKinds k =? -1)%Z
                || SyntaxKind.eqb (nodeKind node) SyntaxKind.VariableDeclaration
                || SyntaxKind.eqb (nodeKind node) SyntaxKind.FunctionDeclaration
                = true).
    { destruct H1 as [H1 | [H1 | H1]].
      - apply considerInheritedExportKinds_indexOf in H1. rewrite H1. reflexivity.
      - rewrite H1. simpl. rewrite orb_true_r. reflexivity.
      - rewrite H1. simpl. rewrite !orb_true_r. reflexivity. }
    rewrite E. simpl. rewrite orb_true_r. reflexivity.
Qed.

(** When the exported state of the container is the starting point. *)
Lemma inheritedExport_taken container node k :
  ~ In (containerKind container) [ReflectionKind.Module; ReflectionKind.ExternalModule] ->
  (In k considerInheritedExportKinds
   /\ nodeKind node <> SyntaxKind.VariableDeclaration
   /\ nodeKind node <> SyntaxKind.FunctionDeclaration)
  \/ In (containerKind container)
       [ReflectionKind.ObjectLiteral; ReflectionKind.TypeLiteral] ->
  inheritedExport container node k = isExported (containerFlags container).
Proof.
  unfold inheritedExport. intros Hm H. apply kindOf_not_In in Hm. rewrite Hm.
  destruct H as [(Hk & Hv & Hf) | H].
  - rewrite (considerInheritedExportKinds_indexOf_In k Hk).
    assert (Ev : SyntaxKind.eqb (nodeKind node) SyntaxKind.VariableDeclaration = false).
    { apply not_true_iff_false. intros E. apply SyntaxKind_eqb_eq in E. contradiction. }
    assert (Ef : SyntaxKind.eqb (nodeKind node) SyntaxKind.FunctionDeclaration = false).
    { apply not_true_iff_false. intros E. apply SyntaxKind_eqb_eq in E. contradiction. }
    rewrite Ev, Ef. reflexivity.
  - apply kindOf_In in H. rewrite H. simpl. rewrite andb_false_r. reflexivity.
Qed.

Lemma resolveExported_same_start context c1 c2 node k :
  containerIsProject c1 = containerIsProject c2 ->
  inheritedExport c1 node k = inheritedExport c2 node k ->
  resolveExported context c1 node k = resolveExported context c2 node k.
Proof.
  intros Hp Hi. unfold resolveExported. rewrite Hp, Hi. reflexivity.
Qed.

(** X2. Inside a Module or ExternalModule container, and for a kind
    outside of the considered kinds or a variable or function declaration
    node inside a container that is neither an object literal nor a type
    literal, the exported flag of the container has no influence on the
    export resolution: two containers of the same kind and class give the
    same outcome whatever their flags. *)
Theorem container_export_not_inherited :
  forall (context : Context) (c1 c2 : ContainerReflection) (node : Node)
         (k : ReflectionKind.t),
    containerKind c1 = containerKind c2 ->
    containerIsProject c1 = containerIsProject c2 ->
    In (containerKind c1) [ReflectionKind.Module; ReflectionKind.ExternalModule]
    \/ ((~ In k considerInheritedExportKinds
         \/ nodeKind node = SyntaxKind.VariableDeclaration
         \/ nodeKind node = SyntaxKind.FunctionDeclaration)
        /\ ~ In (containerKind c1)
               [ReflectionKind.ObjectLiteral; ReflectionKind.TypeLiteral]) ->
    resolveExported context c1 node k = resolveExported context c2 node k.
Proof.
  intros context c1 c2 node k Hk Hp H.
  apply resolveExported_same_start; [exact Hp|].
  rewrite (inheritedExport_ignored c1 node k H).
  rewrite Hk in H. rewrite (inheritedExport_ignored c2 node k H).
  reflexivity.
Qed.

(** An exported function in a namespace: exported whether the namespace
    is or not. *)
Lemma container_export_not_inherited_witness :
  let context :=
    Examples.contextOf (MoreExamples.moduleContainer false) Examples.strictConverter in
  resolveExported context (MoreExamples.moduleContainer false)
    MoreExamples.exportedFunction ReflectionKind.Function
  = resolveExported context (MoreExamples.moduleContainer true)
      MoreExamples.exportedFunction ReflectionKind.Function
  /\ resolveExported context (MoreExamples.moduleContainer false)
       MoreExamples.exportedFunction ReflectionKind.Function
     = Returned true.
Proof.
  intros context. split; [|reflexivity].
  apply (container_export_not_inherited context
           (MoreExamples.moduleContainer false) (MoreExamples.moduleContainer true)
           MoreExamples.exportedFunction ReflectionKind.Function eq_refl eq_refl).
  left. left. reflexivity.
Defined.

Lemma not_exportForced context container k :
  ~ exportForced context container k ->
  ReflectionKind.eqb k ReflectionKind.ExternalModule = false
  /\ isDeclaration context = false
  /\ containerIsProject container
     && negb (isDeclaration context)
     && SourceFileMode.eqb (mode (converter context)) SourceFileMode.File = false.
Proof.
  unfold exportForced. intros H. split; [|split].
  - apply not_true_iff_false. intros E. apply ReflectionKind_eqb_eq in E. tauto.
  - destruct (isDeclaration context); [exfalso; tauto | reflexivity].
  - apply not_true_iff_false. rewrite !andb_true_iff. intros [[Hp _] Hm].
    apply H. right. right. split; [exact Hp|].
    destruct (mode (converter context)); [reflexivity | discriminate].
Qed.

(** X3. A member inherits the exported state of its container: for a
    considered kind on a node that is no variable or function
    declaration, or inside an object or type literal, in a container that
    is no Module or ExternalModule, when nothing forces the export value
    and the node is not ambient and not in a variable declaration list,
    the resolved value is the exported flag of the container or the
    export modifier of the node. *)
Theorem member_export_follows_container :
  forall (context : Context) (container : ContainerReflection) (node : Node)
         (k : ReflectionKind.t),
    ~ In (containerKind container)
        [ReflectionKind.Module; ReflectionKind.ExternalModule] ->
    (In k considerInheritedExportKinds
     /\ nodeKind node <> SyntaxKind.VariableDeclaration
     /\ nodeKind node <> SyntaxKind.FunctionDeclaration)
    \/ In (containerKind container)
         [ReflectionKind.ObjectLiteral; ReflectionKind.TypeLiteral] ->
    ~ exportForced context container k ->
    hasModifier (combinedModifierFlags node) ModifierFlags.Ambient = false ->
    parentKind node <> Some SyntaxKind.VariableDeclarationList ->
    resolveExported context container node k
    = Returned (isExported (containerFlags container)
                || hasModifier (combinedModifierFlags node) ModifierFlags.Export).
Proof.
  intros context container node k Hm Hc Hnf Ha Hv.
  destruct (not_exportForced context container k Hnf) as (E1 & E2 & E3).
  unfold resolveExported.
  rewrite (inheritedExport_taken container node k Hm Hc), E1, Ha, E3, E2. simpl.
  destruct (parent node) as [p|] eqn:Hp; [|reflexivity].
  destruct (SyntaxKind.eqb (nodeKind p) SyntaxKind.VariableDeclarationList) eqn:E;
    [|reflexivity].
  exfalso. apply Hv. unfold parentKind. rewrite Hp. simpl.
  apply SyntaxKind_eqb_eq in E. rewrite E. reflexivity.
Qed.

(** A method without modifiers in an exported class. *)
Lemma member_export_follows_container_witness :
  let context :=
    Examples.contextOf MoreExamples.exportedClassContainer Examples.strictConverter in
  resolveExported context MoreExamples.exportedClassContainer
    MoreExamples.methodM ReflectionKind.Method
  = Returned true.
Proof.
  intros context.
  apply (member_export_follows_container context MoreExamples.exportedClassContainer
           MoreExamples.methodM ReflectionKind.Method).
  - intros [H|[H|[]]]; discriminate.
  - left. split; [|split; discriminate].
    do 7 right. left. reflexivity.
  - intros [H|[H|[H _]]]; discriminate.
  - reflexivity.
  - discriminate.
Defined.

Lemma exportForced_resolveExported context container node k :
  exportForced context container k ->
  resolveExported context container node k = Returned true.
Proof.
  unfold exportForced, resolveExported. intros [-> | [H | [Hp Hm]]].
  - reflexivity.
  - rewrite H, orb_true_r. reflexivity.
  - destruct (isDeclaration context).
    + rewrite orb_true_r. reflexivity.
    + rewrite Hp, Hm. simpl. rewrite !orb_true_r. reflexivity.
Qed.

(** X4. For the kind ExternalModule, in declaration mode, and for the
    project as container in single-file mode, every node resolves to
    exported, and the call never throws on the way; so outside of an
    inheritance walk every node that has a name yields a reflection,
    even with a converter that excludes what is not exported. *)
Theorem forced_export_yields_reflection :
  forall (context : Context) (container : ContainerReflection) (node : Node)
         (k : ReflectionKind.t) (dn : option string),
    exportForced context container k ->
    resolveExported context container node k = Returned true
    /\ (scope context = IsContainer container ->
        isInherit context = false ->
        resolveName node dn <> None ->
        exists r context',
          createDeclaration context node k dn = Returned (Some r, context')
          /\ resolveName node dn = Some (name r)).
Proof.
  intros context container node k dn Hf.
  pose proof (exportForced_resolveExported context container node k Hf) as He.
  split; [exact He|].
  intros Hs Hi Hn.
  destruct (createDeclaration_returns context container node k dn true Hs He)
    as (result & context' & H).
  destruct result as [r|].
  - exists r, context'. split; [exact H|].
    apply createDeclaration_path in H. apply (Path_name _ _ _ _ _ _ H).
  - exfalso. unfold createDeclaration in H. rewrite Hs in H.
    destruct (resolveName node dn) as [nm|]; [|contradiction].
    rewrite He, Hi in H. simpl in H.
    destruct (resolveStatic container node k) as [cp st].
    destruct (findChild nm st _) as [[i child]|]; [|discriminate].
    assert (Ho : isOverride context child node = false)
      by (apply isOverride_false_outside_inheritance; exact Hi).
    rewrite (mergeDeclarations_no_override context child node k Ho) in H.
    discriminate.
Qed.

(** A function without the export modifier at the top of a file
    converted in single-file mode, with a converter that excludes what is
    not exported. *)
Lemma forced_export_yields_reflection_witness :
  let context :=
    Examples.contextOf MoreExamples.projectContainer MoreExamples.fileConverter in
  let node :=
    mkNode 40 SyntaxKind.FunctionDeclaration 0 (Some MoreExamples.sourceFileNode)
      (Some (mkSymbol 40 "g")) None false in
  exists r context',
    createDeclaration context node ReflectionKind.Function None
    = Returned (Some r, context')
    /\ resolveName node None = Some (name r).
Proof.
  intros context node.
  assert (Hf : exportForced context MoreExamples.projectContainer ReflectionKind.Function).
  { right. right. split; reflexivity. }
  destruct (forced_export_yields_reflection context MoreExamples.projectContainer
              node ReflectionKind.Function None Hf) as [_ H].
  apply H; [reflexivity | reflexivity | discriminate].
Defined.

(** X5. With a converter that excludes what is not exported, every
    reflection a call creates has the exported flag. *)
Theorem excluding_converter_creates_exported_children :
  forall (context : Context) (node : Node) (k : ReflectionKind.t)
         (dn : option string) (r : DeclarationReflection) (context' : Context),
    excludeNotExported (converter context) = true ->
    createDeclaration context node k dn = Returned (Some r, context') ->
    childrenOf context' = childrenOf context ++ [r] ->
    isExported (flags r) = true.
Proof.
  intros context node k dn r context' Hx H Happ. pose proof H as H0.
  apply createDeclaration_path in H.
  destruct (Path_appended _ _ _ _ _ _ H Happ)
    as (container & nm & exported & Hs & Hn & He & _ & ->).
  destruct (freshChild_flags context node k nm exported
              (fst (resolveStatic container node k))
              (snd (resolveStatic container node k))) as (_ & _ & _ & ->).
  destruct exported; [reflexivity|].
  exfalso. unfold createDeclaration in H0. rewrite Hs, Hn, He, Hx in H0.
  discriminate.
Qed.

(** The ambient declaration of the class is kept and flagged exported. *)
Lemma excluding_converter_creates_exported_children_witness :
  let context :=
    Examples.contextOf (Examples.classContainer None) Examples.strictConverter in
  let node :=
    mkNode 8 (SyntaxKind.Other 149) ModifierFlags.Ambient (Some Examples.classNode)
      (Some (mkSymbol 8 "y")) None false in
  exists r context',
    createDeclaration context node ReflectionKind.Property None
    = Returned (Some r, context')
    /\ isExported (flags r) = true.
Proof.
  intros context node.
  destruct (createDeclaration context node ReflectionKind.Property None)
    as [[[r|] context']|] eqn:E; try (vm_compute in E; discriminate).
  exists r, context'. split; [reflexivity|].
  apply (excluding_converter_creates_exported_children context node
           ReflectionKind.Property None r context' eq_refl E).
  vm_compute in E. injection E as <- <-. reflexivity.
Defined.

(** ** Static resolution, outside of the rule for classes *)

Lemma resolveStatic_nonStaticKinds container node k :
  In k nonStaticKinds -> resolveStatic container node k = (false, false).
Proof.
  intros H. unfold resolveStatic.
  assert (E : (indexOf ReflectionKind.eqb nonStaticKinds k =? -1)%Z = false).
  { apply not_true_iff_false. intros E. apply nonStaticKinds_indexOf in E.
    contradiction. }
  rewrite E. reflexivity.
Qed.

Lemma resolveStatic_outside_class container node k :
  containerKind container <> ReflectionKind.Class ->
  ~ In k nonStaticKinds ->
  resolveStatic container node k
  = (false, hasModifier (combinedModifierFlags node) ModifierFlags.Static).
Proof.
  intros Hc Hk. apply nonStaticKinds_indexOf in Hk.
  unfold resolveStatic. rewrite Hk.
  assert (E : ReflectionKind.eqb (containerKind container) ReflectionKind.Class = false).
  { apply not_true_iff_false. intros E. apply ReflectionKind_eqb_eq in E.
    contradiction. }
  rewrite E. reflexivity.
Qed.

(** The flags of the returned reflection that the static resolution
    decides. *)
Lemma Path_static_flags context node k dn r context' container :
  scope context = IsContainer container ->
  Path context node k dn (Some r) context' ->
  isStatic (flags r) = snd (resolveStatic container node k)
  /\ (childrenOf context' = childrenOf context ++ [r] ->
      isConstructorProperty (flags r) = fst (resolveStatic container node k)).
Proof.
  intros Hs P.
  destruct (Path_result _ _ _ _ _ _ P) as (c0 & nm & Hs0 & _ & Hk & Hpath).
  rewrite Hs in Hs0. injection Hs0 as <-.
  split.
  - unfold childKey in Hk. congruence.
  - intros Happ. destruct Hpath as [(_ & Hcp & _) | (i & child & _ & _ & Hl)].
    + exact Hcp.
    + exfalso. rewrite Hl in Happ. apply (f_equal (@length _)) in Happ.
      rewrite length_insert, length_app in Happ. simpl in Happ. lia.
Qed.

(** X6. A reflection returned for a node converted with the kind Class,
    Interface or Module is never static, whatever the modifiers of the
    node and the kind of the container, and a reflection created for it
    is no constructor property. *)
Theorem container_kinds_are_never_static :
  forall (context : Context) (node : Node) (k : ReflectionKind.t)
         (dn : option string) (r : DeclarationReflection) (context' : Context),
    In k nonStaticKinds ->
    createDeclaration context node k dn = Returned (Some r, context') ->
    isStatic (flags r) = false
    /\ (childrenOf context' = childrenOf context ++ [r] ->
        isConstructorProperty (flags r) = false).
Proof.
  intros context node k dn r context' Hk H.
  apply createDeclaration_path in H.
  destruct (Path_result _ _ _ _ _ _ H) as (container & _ & Hs & _).
  destruct (Path_static_flags _ _ _ _ _ _ container Hs H) as [H1 H2].
  rewrite (resolveStatic_nonStaticKinds container node k Hk) in H1, H2.
  split; [exact H1 | exact H2].
Qed.

(** A class declared with the static modifier inside a class. *)
Lemma container_kinds_are_never_static_witness :
  let context :=
    Examples.contextOf (Examples.classContainer None) Examples.plainConverter in
  let node :=
    mkNode 41 SyntaxKind.ClassDeclaration ModifierFlags.Static None
      (Some (mkSymbol 41 "Inner")) None false in
  exists r context',
    createDeclaration context node ReflectionKind.Class None
    = Returned (Some r, context')
    /\ isStatic (flags r) = false.
Proof.
  intros context node.
  destruct (createDeclaration context node ReflectionKind.Class None)
    as [[[r|] context']|] eqn:E; try (vm_compute in E; discriminate).
  exists r, context'. split; [reflexivity|].
  apply (container_kinds_are_never_static context node ReflectionKind.Class None
           r context'); [left; reflexivity | exact E].
Defined.

(** X7. Outside of a Class container, a reflection returned for a node
    converted with a kind other than Class, Interface and Module is
    static exactly when the node carries the static modifier, whatever
    the parent of the node is, and a reflection created for it is no
    constructor property. *)
Theorem static_outside_class_is_the_modifier :
  forall (context : Context) (container : ContainerReflection) (node : Node)
         (k : ReflectionKind.t) (dn : option string)
         (r : DeclarationReflection) (context' : Context),
    scope context = IsContainer container ->
    containerKind container <> ReflectionKind.Class ->
    ~ In k nonStaticKinds ->
    createDeclaration context node k dn = Returned (Some r, context') ->
    isStatic (flags r)
      = hasModifier (combinedModifierFlags node) ModifierFlags.Static
    /\ (childrenOf context' = childrenOf context ++ [r] ->
        isConstructorProperty (flags r) = false).
Proof.
  intros context container node k dn r context' Hs Hc Hk H.
  apply createDeclaration_path in H.
  destruct (Path_static_flags _ _ _ _ _ _ container Hs H) as [H1 H2].
  rewrite (resolveStatic_outside_class container node k Hc Hk) in H1, H2.
  split; [exact H1 | exact H2].
Qed.

(** A function at the top of a namespace: its parent is no class
    declaration, and it is not static. *)
Lemma static_outside_class_is_the_modifier_witness :
  let context :=
    Examples.contextOf (MoreExamples.moduleContainer false) Examples.plainConverter in
  exists r context',
    createDeclaration context MoreExamples.exportedFunction ReflectionKind.Function None
    = Returned (Some r, context')
    /\ isStatic (flags r) = false.
Proof.
  intros context.
  destruct (createDeclaration context MoreExamples.exportedFunction
              ReflectionKind.Function None)
    as [[[r|] context']|] eqn:E; try (vm_compute in E; discriminate).
  exists r, context'. split; [reflexivity|].
  assert (Hk : ~ In ReflectionKind.Function nonStaticKinds)
    by (apply nonStaticKinds_indexOf; reflexivity).
  destruct (static_outside_class_is_the_modifier context
              (MoreExamples.moduleContainer false) MoreExamples.exportedFunction
              ReflectionKind.Function None r context' eq_refl
              ltac:(discriminate) Hk E) as [H _].
  exact H.
Defined.

(** ** The created reflection *)

Lemma freshChild_shape context node k nm exported cp st :
  let r := freshChild context node k nm exported cp st in
  let modifiers := combinedModifierFlags node in
  kind r = k
  /\ overwrites r = None
  /\ signatures r = []
  /\ flags r
     = mkFlags exported
         (hasModifier modifiers ModifierFlags.Private)
         (hasModifier modifiers ModifierFlags.Protected)
         (hasModifier modifiers ModifierFlags.Public)
         st
         (questionToken node)
         (hasModifier modifiers ModifierFlags.Abstract)
         (hasModifier modifiers ModifierFlags.Readonly)
         (hasModifier modifiers ModifierFlags.Ambient)
         (contextIsExternal context)
         cp
  /\ inheritedFrom r
     = if isInherit context
          && (sameNode (parent node) (inheritParent context) || cp)
       then Some (createReferenceType (symbol node) true)
       else None.
Proof.
  unfold freshChild, setupDeclaration. simpl.
  destruct (isInherit context
            && (sameNode (parent node) (inheritParent context) || cp));
    simpl; repeat split; reflexivity.
Qed.

(** X8. A reflection that a call creates has the wanted kind, no
    [overwrites] and no signature; its private, protected, public,
    abstract, readonly and ambient flags are the modifiers of the node,
    its optional flag is the question token of the node and its external
    flag is the one of the context; it has [inheritedFrom], made from the
    symbol of the node, exactly when the context is inheriting and the
    parent of the node is the inherit parent or the reflection is a
    constructor property. *)
Theorem created_reflection_shape :
  forall (context : Context) (node : Node) (k : ReflectionKind.t)
         (dn : option string) (r : DeclarationReflection) (context' : Context),
    createDeclaration context node k dn = Returned (Some r, context') ->
    childrenOf context' = childrenOf context ++ [r] ->
    let modifiers := combinedModifierFlags node in
    kind r = k
    /\ overwrites r = None
    /\ signatures r = []
    /\ isPrivate (flags r) = hasModifier modifiers ModifierFlags.Private
    /\ isProtected (flags r) = hasModifier modifiers ModifierFlags.Protected
    /\ isPublic (flags r) = hasModifier modifiers ModifierFlags.Public
    /\ isOptional (flags r) = questionToken node
    /\ isAbstract (flags r) = hasModifier modifiers ModifierFlags.Abstract
    /\ isReadonly (flags r) = hasModifier modifiers ModifierFlags.Readonly
    /\ isAmbient (flags r) = hasModifier modifiers ModifierFlags.Ambient
    /\ isExternal (flags r) = contextIsExternal context
    /\ inheritedFrom r
       = if isInherit context
            && (sameNode (parent node) (inheritParent context)
                || isConstructorProperty (flags r))
         then Some (createReferenceType (symbol node) true)
         else None.
Proof.
  intros context node k dn r context' H Happ modifiers.
  apply createDeclaration_path in H.
  destruct (Path_appended _ _ _ _ _ _ H Happ)
    as (container & nm & exported & _ & _ & _ & _ & ->).
  destruct (freshChild_shape context node k nm exported
              (fst (resolveStatic container node k))
              (snd (resolveStatic container node k)))
    as (Hk & Ho & Hs & Hf & Hi).
  rewrite Hk, Ho, Hs, Hi, Hf. simpl. repeat split; reflexivity.
Qed.

(** The method [foo] of the base class, inherited by a class that does
    not declare it: the reflection is created with [inheritedFrom]. *)
Lemma created_reflection_shape_witness :
  let context := Examples.inheritContextOf (Examples.classContainer None) [] in
  exists r context',
    createDeclaration context Examples.baseFoo ReflectionKind.Method None
    = Returned (Some r, context')
    /\ kind r = ReflectionKind.Method
    /\ overwrites r = None
    /\ inheritedFrom r = Some (createReferenceType (symbol Examples.baseFoo) true).
Proof.
  intros context.
  destruct (createDeclaration context Examples.baseFoo ReflectionKind.Method None)
    as [[[r|] context']|] eqn:E; try (vm_compute in E; discriminate).
  exists r, context'. split; [reflexivity|].
  assert (Happ : childrenOf context' = childrenOf context ++ [r])
    by (vm_compute in E; injection E as <- <-; reflexivity).
  destruct (created_reflection_shape context Examples.baseFoo ReflectionKind.Method
              None r context' E Happ) as (H1 & H2 & _ & _ & _ & _ & _ & _ & _ & _ & _ & H3).
  split; [exact H1|]. split; [exact H2|]. rewrite H3. reflexivity.
Defined.

(** ** Lookup after the call *)

Lemma map_lookup_childKey (l : list DeclarationReflection) i c :
  l !! i = Some c -> map childKey l !! i = Some (childKey c).
Proof.
  revert i. induction l as [|a t IH]; intros [|i] H; simpl in *;
    try discriminate.
  - injection H as ->. reflexivity.
  - apply IH. exact H.
Qed.

(** X17. Under the invariant of the registry, every child of the scope is
    found by its own name and static flag, at its own position; this
    holds after any sequence of invocations on a scope that satisfies the
    invariant. *)
Theorem lookup_finds_each_child :
  forall (context : Context) (invs : list Invocation) (i : nat)
         (c : DeclarationReflection),
    uniqueChildren context ->
    childrenOf (invokeAll context invs) !! i = Some c ->
    findChild (name c) (isStatic (flags c)) (childrenOf (invokeAll context invs))
    = Some (i, c).
Proof.
  intros context invs i c U Hi.
  pose proof (invokeAll_uniqueChildren invs context U) as U'.
  unfold uniqueChildren in U'.
  apply findChild_last. split; [exact Hi|]. split; [reflexivity|].
  intros j c' Hj Hc' Hk.
  apply map_lookup_childKey in Hi, Hc'. fold (childKey c) in Hk.
  rewrite Hk in Hc'.
  pose proof (NoDup_lookup _ _ _ _ U' Hi Hc'). lia.
Qed.

(** After a property, a parameter of the same name and a method, the
    method is found at the second position. *)
Lemma lookup_finds_each_child_witness :
  let context :=
    Examples.contextOf (Examples.classContainer None) Examples.plainConverter in
  let invs :=
    [ Examples.plainInvocation Examples.propertyX ReflectionKind.Property;
      Examples.plainInvocation Examples.parameterX ReflectionKind.Property;
      Examples.plainInvocation MoreExamples.methodM ReflectionKind.Method ] in
  exists c,
    childrenOf (invokeAll context invs) !! 1%nat = Some c
    /\ name c = "m"
    /\ findChild "m" false (childrenOf (invokeAll context invs)) = Some (1%nat, c).
Proof.
  intros context invs.
  destruct (childrenOf (invokeAll context invs) !! 1%nat) as [c|] eqn:E;
    [|vm_compute in E; discriminate].
  assert (U : uniqueChildren context) by (vm_compute; constructor).
  pose proof (lookup_finds_each_child context invs 1%nat c U E) as H.
  exists c. split; [reflexivity|].
  assert (Hc : name c = "m" /\ isStatic (flags c) = false)
    by (vm_compute in E; injection E as <-; split; reflexivity).
  destruct Hc as [Hn Hs]. rewrite Hn, Hs in H. split; [exact Hn | exact H].
Defined.

(** X18. The reflection a call returns is a child of the scope after the
    call, and the one a lookup by its name and static flag finds there:
    a later call for the same name and static flag merges into it. *)
Theorem returned_reflection_is_found :
  forall (context : Context) (node : Node) (k : ReflectionKind.t)
         (dn : option string) (r : DeclarationReflection) (context' : Context),
    createDeclaration context node k dn = Returned (Some r, context') ->
    exists i,
      childrenOf context' !! i = Some r
      /\ findChild (name r) (isStatic (flags r)) (childrenOf context') = Some (i, r).
Proof.
  intros context node k dn r context' H.
  apply createDeclaration_path in H.
  remember (Some r) as result eqn:Hr.
  destruct H as [ | container nm exported child Hs Hn He Hf Hc
                  | container nm i child Hs Hn Hf ].
  - discriminate.
  - injection Hr as ->.
    rewrite childrenOf_trigger, childrenOf_registerReflection, childrenOf_withScope.
    exists (length (childrenOf context)). split.
    + apply list_lookup_middle. reflexivity.
    + apply findChild_appended. reflexivity.
  - destruct (mergeDeclarations_result context child node k) as [E|E];
      rewrite E in Hr; [discriminate|]. injection Hr as Hr.
    cbv zeta. rewrite E, childrenOf_trigger, childrenOf_withScope, Hr.
    pose proof (mergeDeclarations_childKey context child node k) as Hk.
    rewrite Hr in Hk.
    pose proof (findChild_Some _ _ _ _ _ Hf) as [Hl Hkey].
    exists i. split.
    + apply list_lookup_insert_eq. eapply lookup_lt_Some. exact Hl.
    + assert (Hkr : childKey r = (nm, snd (resolveStatic container node k)))
        by congruence.
      unfold childKey in Hkr. injection Hkr as -> ->.
      apply (findChild_insert _ _ _ _ child r Hf Hk).
Qed.

(** The parameter [x] merged into the property [x]: the returned
    reflection is the first child, and the lookup finds it. *)
Lemma returned_reflection_is_found_witness :
  let context :=
    invoke (Examples.contextOf (Examples.classContainer None) Examples.plainConverter)
      (Examples.plainInvocation Examples.propertyX ReflectionKind.Property) in
  exists r context' i,
    createDeclaration context Examples.parameterX ReflectionKind.Property None
    = Returned (Some r, context')
    /\ childrenOf context' !! i = Some r
    /\ findChild (name r) (isStatic (flags r)) (childrenOf context') = Some (i, r).
Proof.
  intros context.
  destruct (createDeclaration context Examples.parameterX ReflectionKind.Property None)
    as [[[r|] context']|] eqn:E; try (vm_compute in E; discriminate).
  destruct (returned_reflection_is_found context Examples.parameterX
              ReflectionKind.Property None r context' E) as (i & H1 & H2).
  exists r, context', i. split; [reflexivity|]. split; [exact H1 | exact H2].
Defined.
